(** * Links dispatch and trip lifecycle: a shallow embedding

    The development follows the code of DATABASE_DESIGN_GUIDE.md: the SQL
    schema, the PL/pgSQL helper functions ([is_subscription_active],
    [is_night_mode], [find_nearby_drivers], [process_trip_refund]) and the
    TypeScript flows written against the Supabase client ([requestTrip],
    [acceptRequest], [startTrip], [completeTrip], [recordDriverLocation],
    the expiry sweeps).

    Tables are lists of rows in scan order.  Every [await supabase...] call
    is one atomic action on the database; a TypeScript function is a
    sequence of such actions in a state-and-exception monad.  A thrown
    exception does not roll anything back: the writes made before it stay.
    All calls are taken to run with a role that row level security lets
    through.  A call of a database function either gives its result or
    raises an error and leaves the database as it was. *)

From Stdlib Require Import List Bool ZArith QArith Qabs Qround String Lia.
From Stdlib Require Import Sorted Permutation.
Import ListNotations.

Set Implicit Arguments.

(* ================================================================== *)
(** ** Column types *)

(** UUID values: only equality matters. *)
Definition uuid := N.
Bind Scope N_scope with uuid.

(** TIMESTAMP WITH TIME ZONE and JavaScript [Date]: milliseconds since the
    epoch, as [Date.now()] counts them. *)
Definition timestamptz := Z.
Bind Scope Z_scope with timestamptz.

(** TIME (time of day): microseconds since midnight. *)
Definition time := Z.
Bind Scope Z_scope with time.

Definition time_of (hours minutes : Z) : time :=
  ((hours * 60 + minutes) * 60 * 1000000)%Z.

Definition midnight_end : time := time_of 24 0.

(** CREATE TYPE user_role AS ENUM ('rider', 'driver', 'admin') *)
Inductive user_role := role_rider | role_driver | role_admin.

(** CREATE TYPE verification_status AS ENUM (...) *)
Inductive verification_status := pending | approved | rejected | suspended.

(** CREATE TYPE subscription_status AS ENUM (...) *)
Inductive subscription_status :=
  sub_active | sub_expired | sub_cancelled | sub_trial.

(** CREATE TYPE trip_status AS ENUM ('requested', 'accepted', 'picked_up',
    'completed', 'cancelled') *)
Inductive trip_status :=
  requested | accepted | picked_up | completed | cancelled.

(** CREATE TYPE trip_type AS ENUM (...) *)
Inductive trip_type := airport | short_drop | market | other.

Definition verification_status_eqb (a b : verification_status) : bool :=
  match a, b with
  | pending, pending | approved, approved
  | rejected, rejected | suspended, suspended => true
  | _, _ => false
  end.

Definition subscription_status_eqb (a b : subscription_status) : bool :=
  match a, b with
  | sub_active, sub_active | sub_expired, sub_expired
  | sub_cancelled, sub_cancelled | sub_trial, sub_trial => true
  | _, _ => false
  end.

Definition trip_status_eqb (a b : trip_status) : bool :=
  match a, b with
  | requested, requested | accepted, accepted | picked_up, picked_up
  | completed, completed | cancelled, cancelled => true
  | _, _ => false
  end.

(** The input function of the enum: a quoted literal assigned to a
    [trip_status] column is read as one of the five labels, and any other
    text is an invalid input value. *)
Definition trip_status_of_label (label : string) : option trip_status :=
  if String.eqb label "requested" then Some requested
  else if String.eqb label "accepted" then Some accepted
  else if String.eqb label "picked_up" then Some picked_up
  else if String.eqb label "completed" then Some completed
  else if String.eqb label "cancelled" then Some cancelled
  else None.

(** DECIMAL(precision, scale): a value is rounded to [scale] decimal places,
    halves away from zero, and is a numeric field overflow ([None]) when the
    rounded value needs more than [precision] digits. *)
Definition round_half_away (q : Q) : Z :=
  if Qle_bool 0 q
  then Qfloor (q + (1 # 2))
  else (- Qfloor (- q + (1 # 2)))%Z.

Definition to_numeric (precision scale : nat) (q : Q) : option Q :=
  let unit := Z.pow 10 (Z.of_nat scale) in
  let digits := round_half_away (q * inject_Z unit) in
  if Z.ltb (Z.abs digits) (Z.pow 10 (Z.of_nat precision))
  then Some (Qred (Qmake digits (Z.to_pos unit)))
  else None.

(** A nullable UUID column compared with a value, as [.eq('id', x)] and
    [ON a = b] do: NULL matches nothing. *)
Definition col_is (c : option uuid) (x : uuid) : bool :=
  match c with
  | Some y => N.eqb y x
  | None => false
  end.

(** GEOGRAPHY(POINT, 4326), written [POINT(lng lat)]. *)
Record geography := POINT { lng : Q; lat : Q }.

(** The [Location] argument of the TypeScript flows. *)
Record Location := { loc_lat : Q; loc_lng : Q; loc_address : string }.

(* ================================================================== *)
(** ** Rows *)

Record user_row := {
  u_id : uuid;
  u_full_name : string
}.

Record rider_profile := {
  rp_id : uuid;
  rp_user_id : option uuid;
  rp_subscription_status : subscription_status;
  rp_subscription_end_date : option timestamptz;
  rp_trial_end_date : option timestamptz;
  rp_total_trips : Z
}.

Record driver_profile := {
  dp_id : uuid;
  dp_user_id : option uuid;
  dp_verification_status : verification_status;
  dp_subscription_status : subscription_status;
  dp_subscription_end_date : option timestamptz;
  dp_is_online : bool;
  dp_is_available : bool;
  dp_current_location : option geography;
  dp_location_updated_at : option timestamptz;
  dp_total_trips : Z;
  dp_rating_average : Q
}.

Record vehicle := {
  v_id : uuid;
  v_driver_id : option uuid;
  v_make : string;
  v_model : string;
  v_is_primary : bool
}.

Record trip_request := {
  tr_id : uuid;
  tr_rider_id : option uuid;
  tr_pickup : Location;
  tr_destination : Location;
  tr_trip_type : trip_type;
  tr_estimated_distance_km : option Q;
  tr_estimated_fare : option Q;
  tr_status : trip_status;
  tr_expires_at : option timestamptz;
  tr_created_at : timestamptz
}.

Record trip := {
  t_id : uuid;
  t_rider_id : option uuid;
  t_driver_id : option uuid;
  t_vehicle_id : option uuid;
  t_pickup : Location;
  t_destination : Location;
  t_trip_type : trip_type;
  t_status : trip_status;
  t_estimated_distance_km : option Q;
  t_actual_distance_km : option Q;
  t_estimated_fare : option Q;
  t_actual_fare : option Q;
  t_requested_at : timestamptz;
  t_accepted_at : option timestamptz;
  t_picked_up_at : option timestamptz;
  t_completed_at : option timestamptz;
  t_is_night_trip : bool
}.

Record location_sample := {
  lh_trip_id : uuid;
  lh_driver_id : uuid;
  lh_latitude : Q;
  lh_longitude : Q;
  lh_location : geography;
  lh_speed_kmh : Q;
  lh_recorded_at : timestamptz
}.

(** CREATE TYPE payment_status AS ENUM (...) *)
Inductive payment_status :=
  pay_pending | pay_completed | pay_failed | pay_refunded.

(** payment_transactions: the payer, the amount and the state of a
    payment.  The table has no column for a trip. *)
Record payment_transaction := {
  pt_user_id : option uuid;
  pt_subscription_id : option uuid;
  pt_amount : Q;
  pt_payment_method : string;
  pt_status : payment_status
}.

(** The column names of CREATE TABLE payment_transactions. *)
Definition payment_transactions_columns : list string :=
  ["id"; "user_id"; "subscription_id"; "amount"; "currency";
   "payment_method"; "mmg_transaction_id"; "mmg_reference";
   "mmg_phone_number"; "status"; "gateway_response"; "error_message";
   "initiated_at"; "completed_at"; "created_at"]%string.

Record notification := {
  n_user_id : option uuid;
  n_title : string;
  n_notification_type : string;
  n_related_entity_id : option uuid
}.

Record database := {
  users : list user_row;
  rider_profiles : list rider_profile;
  driver_profiles : list driver_profile;
  vehicles : list vehicle;
  trip_requests : list trip_request;
  trips : list trip;
  location_history : list location_sample;
  payment_transactions : list payment_transaction;
  notifications : list notification
}.

Definition with_rider_profiles (f : list rider_profile -> list rider_profile)
  (db : database) : database :=
  {| users := users db; rider_profiles := f (rider_profiles db);
     driver_profiles := driver_profiles db; vehicles := vehicles db;
     trip_requests := trip_requests db; trips := trips db;
     location_history := location_history db;
     payment_transactions := payment_transactions db;
     notifications := notifications db |}.

Definition with_driver_profiles (f : list driver_profile -> list driver_profile)
  (db : database) : database :=
  {| users := users db; rider_profiles := rider_profiles db;
     driver_profiles := f (driver_profiles db); vehicles := vehicles db;
     trip_requests := trip_requests db; trips := trips db;
     location_history := location_history db;
     payment_transactions := payment_transactions db;
     notifications := notifications db |}.

Definition with_trip_requests (f : list trip_request -> list trip_request)
  (db : database) : database :=
  {| users := users db; rider_profiles := rider_profiles db;
     driver_profiles := driver_profiles db; vehicles := vehicles db;
     trip_requests := f (trip_requests db); trips := trips db;
     location_history := location_history db;
     payment_transactions := payment_transactions db;
     notifications := notifications db |}.

Definition with_trips (f : list trip -> list trip) (db : database) : database :=
  {| users := users db; rider_profiles := rider_profiles db;
     driver_profiles := driver_profiles db; vehicles := vehicles db;
     trip_requests := trip_requests db; trips := f (trips db);
     location_history := location_history db;
     payment_transactions := payment_transactions db;
     notifications := notifications db |}.

Definition with_location_history
  (f : list location_sample -> list location_sample) (db : database) : database :=
  {| users := users db; rider_profiles := rider_profiles db;
     driver_profiles := driver_profiles db; vehicles := vehicles db;
     trip_requests := trip_requests db; trips := trips db;
     location_history := f (location_history db);
     payment_transactions := payment_transactions db;
     notifications := notifications db |}.

Definition with_payment_transactions
  (f : list payment_transaction -> list payment_transaction)
  (db : database) : database :=
  {| users := users db; rider_profiles := rider_profiles db;
     driver_profiles := driver_profiles db; vehicles := vehicles db;
     trip_requests := trip_requests db; trips := trips db;
     location_history := location_history db;
     payment_transactions := f (payment_transactions db);
     notifications := notifications db |}.

Definition with_notifications (f : list notification -> list notification)
  (db : database) : database :=
  {| users := users db; rider_profiles := rider_profiles db;
     driver_profiles := driver_profiles db; vehicles := vehicles db;
     trip_requests := trip_requests db; trips := trips db;
     location_history := location_history db;
     payment_transactions := payment_transactions db;
     notifications := f (notifications db) |}.

(* ================================================================== *)
(** ** Generic table operations *)

(** [.single()]: the row when exactly one row qualifies, [null] otherwise. *)
Definition single {A : Type} (rows : list A) : option A :=
  match rows with
  | [r] => Some r
  | _ => None
  end.

(** UPDATE ... SET ... WHERE: every qualifying row is rewritten in place. *)
Definition update_where {A : Type} (p : A -> bool) (f : A -> A)
  (rows : list A) : list A :=
  map (fun r => if p r then f r else r) rows.

(** DELETE ... WHERE. *)
Definition delete_where {A : Type} (p : A -> bool) (rows : list A) : list A :=
  filter (fun r => negb (p r)) rows.

(** A foreign key column: NULL passes, a value must name a row. *)
Definition references {A : Type} (key : A -> uuid) (rows : list A)
  (c : option uuid) : bool :=
  match c with
  | None => true
  | Some x => existsb (fun r => N.eqb (key r) x) rows
  end.

(* ================================================================== *)
(** ** The monad of the TypeScript flows *)

Inductive error :=
| Error (message : string)            (* throw new Error(message) *)
| TypeError                           (* a property read on null *)
| PostgrestError (sqlstate : string). (* throw error, the error of a call *)

Inductive outcome (A : Type) :=
| Returned (a : A)
| Thrown (e : error).

Arguments Returned {A} a.
Arguments Thrown {A} e.

Definition M (A : Type) : Type := database -> database * outcome A.

Definition ret {A : Type} (a : A) : M A := fun db => (db, Returned a).

Definition throw {A : Type} (e : error) : M A := fun db => (db, Thrown e).

Definition bind {A B : Type} (m : M A) (k : A -> M B) : M B :=
  fun db =>
    match m db with
    | (db', Returned a) => k a db'
    | (db', Thrown e) => (db', Thrown e)
    end.

Definition read {A : Type} (f : database -> A) : M A :=
  fun db => (db, Returned (f db)).

Definition write (f : database -> database) : M unit :=
  fun db => (f db, Returned tt).

Declare Scope flow_scope.
Delimit Scope flow_scope with flow.
Notation "x <- m ;; k" := (bind m (fun x => k))
  (at level 61, m at next level, right associativity) : flow_scope.
Notation "m ;;; k" := (bind m (fun _ => k))
  (at level 61, right associativity) : flow_scope.

Definition succeeded {A : Type} (o : outcome A) : bool :=
  match o with
  | Returned _ => true
  | Thrown _ => false
  end.

(* ================================================================== *)
(** ** Configuration *)

(** The rows of [system_config] that the dispatch code reads. *)
Record system_config := {
  trip_expiry_minutes : Z;
  night_mode_start : time;
  night_mode_end : time;
  max_search_radius_km : Q;
  base_fare : Q;
  per_km_rate : Q
}.

(** INSERT INTO system_config ... (the defaults of the schema). *)
Definition default_config : system_config :=
  {| trip_expiry_minutes := 10;
     night_mode_start := time_of 18 0;
     night_mode_end := time_of 6 0;
     max_search_radius_km := 15;
     base_fare := 500;
     per_km_rate := 150 |}.

(* ================================================================== *)
(** ** Subscription eligibility *)

(** SQL three-valued AND; [None] is NULL. *)
Definition sql_and (a b : option bool) : option bool :=
  match a, b with
  | Some false, _ | _, Some false => Some false
  | Some true, Some true => Some true
  | _, _ => None
  end.

(** [v_status IN ('active', 'trial')] *)
Definition status_in_active_trial (s : option subscription_status) : option bool :=
  match s with
  | None => None
  | Some sub_active | Some sub_trial => Some true
  | Some _ => Some false
  end.

(** [v_end_date > NOW()] *)
Definition sql_gt (a : option timestamptz) (b : timestamptz) : option bool :=
  match a with
  | None => None
  | Some x => Some (Z.ltb b x)
  end.

(** SELECT ... INTO v_status, v_end_date FROM t WHERE user_id = p_user_id:
    the first qualifying row, NULLs when there is none. *)
Definition select_into {A : Type} (user_of : A -> option uuid)
  (status_of : A -> subscription_status)
  (end_of : A -> option timestamptz) (rows : list A) (p_user_id : uuid)
  : option subscription_status * option timestamptz :=
  match filter (fun r => col_is (user_of r) p_user_id) rows with
  | r :: _ => (Some (status_of r), end_of r)
  | [] => (None, None)
  end.

(** CREATE FUNCTION is_subscription_active(p_user_id UUID, p_role user_role)
    RETURNS BOOLEAN; [now] is NOW(). *)
Definition is_subscription_active (db : database) (now : timestamptz)
  (p_user_id : uuid) (p_role : user_role) : option bool :=
  match p_role with
  | role_rider =>
      let '(v_status, v_end_date) :=
        select_into rp_user_id rp_subscription_status
          rp_subscription_end_date (rider_profiles db) p_user_id in
      sql_and (status_in_active_trial v_status) (sql_gt v_end_date now)
  | role_driver =>
      let '(v_status, v_end_date) :=
        select_into dp_user_id dp_subscription_status
          dp_subscription_end_date (driver_profiles db) p_user_id in
      sql_and (status_in_active_trial v_status) (sql_gt v_end_date now)
  | role_admin => Some false
  end.

(** [new Date(x)] for a timestamp column read through the client: NULL
    becomes the epoch. *)
Definition new_Date (x : option timestamptz) : timestamptz :=
  match x with
  | Some t => t
  | None => 0%Z
  end.

(** The inline check of [requestTrip]:
    [rider.subscription_status === 'active' &&
     new Date(rider.subscription_end_date) > new Date()]. *)
Definition isActive (rider : rider_profile) (now : timestamptz) : bool :=
  subscription_status_eqb (rp_subscription_status rider) sub_active
  && Z.ltb now (new_Date (rp_subscription_end_date rider)).

(* ================================================================== *)
(** ** Fares and night mode *)

(** CREATE FUNCTION is_night_mode() RETURNS BOOLEAN; [v_current_time] is
    CURRENT_TIME and the window is the 'night_mode_hours' row. *)
Definition is_night_mode (cfg : system_config) (v_current_time : time) : bool :=
  let v_start_time := night_mode_start cfg in
  let v_end_time := night_mode_end cfg in
  if Z.gtb v_start_time v_end_time
  then Z.geb v_current_time v_start_time || Z.ltb v_current_time v_end_time
  else Z.geb v_current_time v_start_time && Z.ltb v_current_time v_end_time.

(** Modelled from the spec: [calculateFare], which [requestTrip] calls but
    which is not part of the sources.  "fare = baseFare + perKmRate *
    distanceKm using configured rates". *)
Definition calculateFare (cfg : system_config) (distanceKm : Q) : Q :=
  base_fare cfg + per_km_rate cfg * distanceKm.

(** Modelled from the spec: [FareCalculator.Estimate], absent from the
    sources as a function; its night flag is [is_night_mode] of the schema
    evaluated at [atTime] instead of CURRENT_TIME. *)
Definition Estimate (cfg : system_config) (distanceKm : Q)
  (tripType : trip_type) (atTime : time) : Q * bool :=
  (calculateFare cfg distanceKm, is_night_mode cfg atTime).

(** The night window in the words of the specification: [start, end), and
    [start, 24:00) with [0, end) when start > end. *)
Definition in_night_window (cfg : system_config) (t : time) : Prop :=
  if Z.gtb (night_mode_start cfg) (night_mode_end cfg)
  then (night_mode_start cfg <= t < midnight_end
        \/ 0 <= t < night_mode_end cfg)%Z
  else (night_mode_start cfg <= t < night_mode_end cfg)%Z.

(** A TIME value lies between 00:00 and 24:00. *)
Definition valid_time (t : time) : Prop := (0 <= t < midnight_end)%Z.

(* ================================================================== *)
(** ** Nearby drivers *)

(** RETURNS TABLE (driver_id, driver_name, distance_km, rating,
    vehicle_info). *)
Record nearby_driver := {
  driver_id : uuid;
  driver_name : string;
  distance_km : Q;
  rating : Q;
  vehicle_info : option string
}.

(** ORDER BY key ASC over rows whose key is a number, as an executor that
    leaves rows of equal key in scan order carries it out: insertion of
    each row before the first later row whose key is not smaller.  SQL
    itself fixes no order among rows of equal key. *)
Fixpoint insert_by {A : Type} (key : A -> Q) (r : A) (sorted : list A) : list A :=
  match sorted with
  | [] => [r]
  | x :: rest =>
      if Qle_bool (key r) (key x) then r :: sorted
      else x :: insert_by key r rest
  end.

Definition order_by_asc {A : Type} (key : A -> Q) (rows : list A) : list A :=
  fold_right (insert_by key) [] rows.

(** Ascending in a numeric key. *)
Definition ascending {A : Type} (key : A -> Q) (a b : A) : Prop :=
  key a <= key b.

(** LIMIT n. *)
Definition limit {A : Type} (n : nat) (rows : list A) : list A := firstn n rows.

(** The column types that occur in the function and its query. *)
Inductive sql_type :=
  ty_uuid | ty_text | ty_varchar | ty_numeric | ty_double_precision.

Definition sql_type_eqb (a b : sql_type) : bool :=
  match a, b with
  | ty_uuid, ty_uuid | ty_text, ty_text | ty_varchar, ty_varchar
  | ty_numeric, ty_numeric
  | ty_double_precision, ty_double_precision => true
  | _, _ => false
  end.

Fixpoint same_types (declared actual : list sql_type) : bool :=
  match declared, actual with
  | [], [] => true
  | d :: declared, a :: actual => sql_type_eqb d a && same_types declared actual
  | _, _ => false
  end.

(** What a call of a database function comes to: its result, or the
    SQLSTATE of the error it raised.  A function that raises leaves the
    database as it found it. *)
Inductive sql_result (A : Type) :=
| Rows (data : A)
| Raised (sqlstate : string).

Arguments Rows {A} data.
Arguments Raised {A} sqlstate.

Definition returned_rows {A : Type} (r : sql_result (list A)) : list A :=
  match r with
  | Rows rows => rows
  | Raised _ => []
  end.

(** RETURNS TABLE (driver_id UUID, driver_name TEXT, distance_km DECIMAL,
    rating DECIMAL, vehicle_info TEXT) *)
Definition returns_table : list sql_type :=
  [ty_uuid; ty_text; ty_numeric; ty_numeric; ty_text].

(** The types of the SELECT list: [dp.id] is UUID, [u.full_name] is
    VARCHAR(255), [ST_Distance(...) / 1000] is double precision as PostGIS
    declares [ST_Distance], [dp.rating_average] is DECIMAL(3,2) and
    [v.make || ' ' || v.model] is text. *)
Definition select_list_types : list sql_type :=
  [ty_uuid; ty_varchar; ty_double_precision; ty_numeric; ty_text].

Section GeoIndex.

(** PostGIS [ST_Distance] on geography values, in metres. *)
Variable ST_Distance : geography -> geography -> Q.

(** PostGIS [ST_DWithin]: the distance is at most [d] metres; NULL (an
    unset location) does not qualify. *)
Definition ST_DWithin (a : option geography) (b : geography) (d : Q) : bool :=
  match a with
  | Some g => Qle_bool (ST_Distance g b) d
  | None => false
  end.

(** LEFT JOIN vehicles v ON v.driver_id = dp.id AND v.is_primary = true *)
Definition left_join_vehicles (db : database) (dp : driver_profile)
  : list (option vehicle) :=
  match filter (fun v => col_is (v_driver_id v) (dp_id dp) && v_is_primary v)
               (vehicles db) with
  | [] => [None]
  | vs => map (@Some vehicle) vs
  end.

(** FROM driver_profiles dp JOIN users u ON u.id = dp.user_id LEFT JOIN ... *)
Definition from_clause (db : database)
  : list (driver_profile * user_row * option vehicle) :=
  flat_map
    (fun dp =>
       flat_map
         (fun u =>
            if col_is (dp_user_id dp) (u_id u)
            then map (fun v => (dp, u, v)) (left_join_vehicles db dp)
            else [])
         (users db))
    (driver_profiles db).

(** The WHERE clause of [find_nearby_drivers]. *)
Definition where_clause (here : geography) (radius_km : Q)
  (row : driver_profile * user_row * option vehicle) : bool :=
  let '(dp, _, _) := row in
  dp_is_online dp
  && dp_is_available dp
  && verification_status_eqb (dp_verification_status dp) approved
  && (subscription_status_eqb (dp_subscription_status dp) sub_active
      || subscription_status_eqb (dp_subscription_status dp) sub_trial)
  && ST_DWithin (dp_current_location dp) here (radius_km * 1000).

(** The SELECT list.  [distance_km] is read only on rows that passed the
    WHERE clause, where the location is set. *)
Definition select_list (here : geography)
  (row : driver_profile * user_row * option vehicle) : nearby_driver :=
  let '(dp, u, v) := row in
  {| driver_id := dp_id dp;
     driver_name := u_full_name u;
     distance_km :=
       match dp_current_location dp with
       | Some g => ST_Distance g here / 1000
       | None => 0
       end;
     rating := dp_rating_average dp;
     vehicle_info :=
       option_map (fun v => (v_make v ++ " " ++ v_model v)%string) v |}.

Definition matching_rows (db : database) (here : geography) (radius_km : Q)
  : list (driver_profile * user_row * option vehicle) :=
  filter (where_clause here radius_km) (from_clause db).

(** The query of the function body, SELECT ... ORDER BY distance_km ASC
    LIMIT 20, run on its own, as an executor that keeps rows of equal
    distance in scan order produces it. *)
Definition return_query (db : database)
  (user_latitude user_longitude : Q) (radius_km : Q) : list nearby_driver :=
  let here := POINT user_longitude user_latitude in
  limit 20
    (order_by_asc distance_km
       (map (select_list here) (matching_rows db here radius_km))).

(** The results the query may have.  ORDER BY names the distance only, so
    SQL leaves the order among rows of equal distance open: every
    arrangement of the selected rows that ascends in the distance, cut by
    LIMIT 20, is a result. *)
Definition return_query_yields (db : database)
  (user_latitude user_longitude : Q) (radius_km : Q)
  (out : list nearby_driver) : Prop :=
  let here := POINT user_longitude user_latitude in
  exists sorted,
    Permutation (map (select_list here) (matching_rows db here radius_km)) sorted
    /\ StronglySorted (ascending distance_km) sorted
    /\ out = limit 20 sorted.

(** CREATE FUNCTION find_nearby_drivers(user_latitude, user_longitude,
    radius_km DEFAULT 5) RETURNS TABLE (...) ... RETURN QUERY SELECT ...
    RETURN QUERY hands the rows of the query over without a cast: when a
    column of the query has another type than the column declared for it,
    the call raises 42804 (structure of query does not match function
    result type). *)
Definition find_nearby_drivers (db : database)
  (user_latitude user_longitude : Q) (radius_km : Q)
  : sql_result (list nearby_driver) :=
  if same_types returns_table select_list_types
  then Rows (return_query db user_latitude user_longitude radius_km)
  else Raised "42804".

End GeoIndex.




(* ================================================================== *)
(** ** Atomic database calls *)

Open Scope flow_scope.

(** [.select(...).eq(...)....single()] *)
Definition select_single {A : Type} (table : database -> list A)
  (p : A -> bool) : M (option A) :=
  read (fun db => single (filter p (table db))).

(** The constraints an INSERT INTO trips has to pass: a new primary key and
    the three foreign keys. *)
Definition trip_insertable (db : database) (t : trip) : bool :=
  negb (existsb (fun r => N.eqb (t_id r) (t_id t)) (trips db))
  && references rp_id (rider_profiles db) (t_rider_id t)
  && references dp_id (driver_profiles db) (t_driver_id t)
  && references v_id (vehicles db) (t_vehicle_id t).

(** [.from('trips').insert(t).select().single()]: the stored row, or [null]
    when the insert is rejected (the flows never look at [error]). *)
Definition insert_trip (t : trip) : M (option trip) :=
  fun db =>
    if trip_insertable db t
    then (with_trips (fun rows => rows ++ [t]) db, Returned (Some t))
    else (db, Returned None).

Definition request_insertable (db : database) (r : trip_request) : bool :=
  negb (existsb (fun x => N.eqb (tr_id x) (tr_id r)) (trip_requests db))
  && references rp_id (rider_profiles db) (tr_rider_id r).

Definition insert_request (r : trip_request) : M (option trip_request) :=
  fun db =>
    if request_insertable db r
    then (with_trip_requests (fun rows => rows ++ [r]) db, Returned (Some r))
    else (db, Returned None).

(** The row of location_history that holds the values of [s]: latitude
    DECIMAL(10, 8), longitude DECIMAL(11, 8) and speed_kmh DECIMAL(5,2) are
    rounded to the scale of their column; there is no row when one of them
    overflows. *)
Definition location_values (s : location_sample) : option location_sample :=
  match to_numeric 10 8 (lh_latitude s), to_numeric 11 8 (lh_longitude s),
        to_numeric 5 2 (lh_speed_kmh s) with
  | Some latitude, Some longitude, Some speed =>
      Some {| lh_trip_id := lh_trip_id s; lh_driver_id := lh_driver_id s;
              lh_latitude := latitude; lh_longitude := longitude;
              lh_location := lh_location s;
              lh_speed_kmh := speed; lh_recorded_at := lh_recorded_at s |}
  | _, _, _ => None
  end.

(** [.from('location_history').insert(s)], result not read: the row is
    stored when the values fit their columns and both foreign keys name a
    row. *)
Definition insert_location_sample (s : location_sample) : M unit :=
  write (fun db =>
    match location_values s with
    | Some row =>
        if existsb (fun t => N.eqb (t_id t) (lh_trip_id s)) (trips db)
           && existsb (fun d => N.eqb (dp_id d) (lh_driver_id s))
                (driver_profiles db)
        then with_location_history (fun rows => rows ++ [row]) db
        else db
    | None => db
    end).

(** [.from('notifications').insert(n)], result not read. *)
Definition insert_notification (n : notification) : M unit :=
  write (fun db =>
    if references u_id (users db) (n_user_id n)
    then with_notifications (fun rows => rows ++ [n]) db
    else db).

Definition delete_requests (p : trip_request -> bool) : M unit :=
  write (with_trip_requests (delete_where p)).

Definition update_drivers (p : driver_profile -> bool)
  (f : driver_profile -> driver_profile) : M unit :=
  write (with_driver_profiles (update_where p f)).

Definition update_trips (p : trip -> bool) (f : trip -> trip) : M unit :=
  write (with_trips (update_where p f)).

(** [.update(values).eq(...).select(...).single()]: the rewritten row when
    exactly one row qualified.  [values] is [None] when a value does not
    fit its column: the statement is rejected, nothing is written and
    [data] is [null]. *)
Definition update_trips_single (p : trip -> bool)
  (values : option (trip -> trip)) : M (option trip) :=
  fun db =>
    match values with
    | Some f =>
        (with_trips (update_where p f) db,
         Returned (single (map f (filter p (trips db)))))
    | None => (db, Returned None)
    end.

(* ------------------------------------------------------------------ *)
(** *** Column assignments *)

Definition set_is_available (b : bool) (d : driver_profile) : driver_profile :=
  {| dp_id := dp_id d; dp_user_id := dp_user_id d;
     dp_verification_status := dp_verification_status d;
     dp_subscription_status := dp_subscription_status d;
     dp_subscription_end_date := dp_subscription_end_date d;
     dp_is_online := dp_is_online d;
     dp_is_available := b;
     dp_current_location := dp_current_location d;
     dp_location_updated_at := dp_location_updated_at d;
     dp_total_trips := dp_total_trips d;
     dp_rating_average := dp_rating_average d |}.

Definition set_current_location (g : geography) (at_ : timestamptz)
  (d : driver_profile) : driver_profile :=
  {| dp_id := dp_id d; dp_user_id := dp_user_id d;
     dp_verification_status := dp_verification_status d;
     dp_subscription_status := dp_subscription_status d;
     dp_subscription_end_date := dp_subscription_end_date d;
     dp_is_online := dp_is_online d;
     dp_is_available := dp_is_available d;
     dp_current_location := Some g;
     dp_location_updated_at := Some at_;
     dp_total_trips := dp_total_trips d;
     dp_rating_average := dp_rating_average d |}.

Definition add_driver_trip (d : driver_profile) : driver_profile :=
  {| dp_id := dp_id d; dp_user_id := dp_user_id d;
     dp_verification_status := dp_verification_status d;
     dp_subscription_status := dp_subscription_status d;
     dp_subscription_end_date := dp_subscription_end_date d;
     dp_is_online := dp_is_online d;
     dp_is_available := dp_is_available d;
     dp_current_location := dp_current_location d;
     dp_location_updated_at := dp_location_updated_at d;
     dp_total_trips := (dp_total_trips d + 1)%Z;
     dp_rating_average := dp_rating_average d |}.

Definition add_rider_trip (r : rider_profile) : rider_profile :=
  {| rp_id := rp_id r; rp_user_id := rp_user_id r;
     rp_subscription_status := rp_subscription_status r;
     rp_subscription_end_date := rp_subscription_end_date r;
     rp_trial_end_date := rp_trial_end_date r;
     rp_total_trips := (rp_total_trips r + 1)%Z |}.

(** [{ status: 'picked_up', picked_up_at: now }] *)
Definition set_picked_up (now : timestamptz) (t : trip) : trip :=
  {| t_id := t_id t; t_rider_id := t_rider_id t; t_driver_id := t_driver_id t;
     t_vehicle_id := t_vehicle_id t; t_pickup := t_pickup t;
     t_destination := t_destination t; t_trip_type := t_trip_type t;
     t_status := picked_up;
     t_estimated_distance_km := t_estimated_distance_km t;
     t_actual_distance_km := t_actual_distance_km t;
     t_estimated_fare := t_estimated_fare t;
     t_actual_fare := t_actual_fare t;
     t_requested_at := t_requested_at t; t_accepted_at := t_accepted_at t;
     t_picked_up_at := Some now;
     t_completed_at := t_completed_at t;
     t_is_night_trip := t_is_night_trip t |}.

(** [{ status: 'completed', completed_at: now, actual_distance_km,
       actual_fare }] *)
Definition set_completed (now : timestamptz) (actualDistance actualFare : Q)
  (t : trip) : trip :=
  {| t_id := t_id t; t_rider_id := t_rider_id t; t_driver_id := t_driver_id t;
     t_vehicle_id := t_vehicle_id t; t_pickup := t_pickup t;
     t_destination := t_destination t; t_trip_type := t_trip_type t;
     t_status := completed;
     t_estimated_distance_km := t_estimated_distance_km t;
     t_actual_distance_km := Some actualDistance;
     t_estimated_fare := t_estimated_fare t;
     t_actual_fare := Some actualFare;
     t_requested_at := t_requested_at t; t_accepted_at := t_accepted_at t;
     t_picked_up_at := t_picked_up_at t;
     t_completed_at := Some now;
     t_is_night_trip := t_is_night_trip t |}.

(** The values of [completeTrip] as the columns actual_distance_km
    DECIMAL(6,2) and actual_fare DECIMAL(10,2) take them. *)
Definition completed_values (now : timestamptz) (actualDistance actualFare : Q)
  : option (trip -> trip) :=
  match to_numeric 6 2 actualDistance, to_numeric 10 2 actualFare with
  | Some distance, Some fare => Some (set_completed now distance fare)
  | _, _ => None
  end.

(** [SET status = s, actual_fare = actual_fare - p_refund_amount] *)
Definition set_status_less (s : trip_status) (p_refund_amount : Q) (t : trip)
  : trip :=
  {| t_id := t_id t; t_rider_id := t_rider_id t; t_driver_id := t_driver_id t;
     t_vehicle_id := t_vehicle_id t; t_pickup := t_pickup t;
     t_destination := t_destination t; t_trip_type := t_trip_type t;
     t_status := s;
     t_estimated_distance_km := t_estimated_distance_km t;
     t_actual_distance_km := t_actual_distance_km t;
     t_estimated_fare := t_estimated_fare t;
     t_actual_fare := option_map (fun f => f - p_refund_amount) (t_actual_fare t);
     t_requested_at := t_requested_at t; t_accepted_at := t_accepted_at t;
     t_picked_up_at := t_picked_up_at t;
     t_completed_at := t_completed_at t;
     t_is_night_trip := t_is_night_trip t |}.

(** The row [acceptRequest] inserts into trips; [id] is the value the
    column default uuid_generate_v4() produces for it, and is_night_trip
    keeps its default. *)
Definition trip_of_request (request : trip_request)
  (driverId vehicleId id : uuid) (now : timestamptz) : trip :=
  {| t_id := id;
     t_rider_id := tr_rider_id request;
     t_driver_id := Some driverId;
     t_vehicle_id := Some vehicleId;
     t_pickup := tr_pickup request;
     t_destination := tr_destination request;
     t_trip_type := tr_trip_type request;
     t_status := accepted;
     t_estimated_distance_km := tr_estimated_distance_km request;
     t_actual_distance_km := None;
     t_estimated_fare := tr_estimated_fare request;
     t_actual_fare := None;
     t_requested_at := tr_created_at request;
     t_accepted_at := Some now;
     t_picked_up_at := None;
     t_completed_at := None;
     t_is_night_trip := false |}.

(* ================================================================== *)
(** ** The trip request flow (section 4.1 of the guide) *)

(** The request row selected by [acceptRequest]:
    [.eq('id', requestId).eq('status', 'requested')]. *)
Definition open_request (requestId : uuid) (r : trip_request) : bool :=
  N.eqb (tr_id r) requestId && trip_status_eqb (tr_status r) requested.

(** async function acceptRequest(requestId, driverId, vehicleId).
    [newTripId] is the generated key of the inserted trip and [now] the
    reading of [new Date()]. *)
Definition acceptRequest (requestId driverId vehicleId : uuid)
  (newTripId : uuid) (now : timestamptz) : M trip :=
  (* 1. Get request *)
  request <- select_single trip_requests (open_request requestId) ;;
  match request with
  | None => throw (Error "Request no longer available")
  | Some request =>
      (* 2. Create trip *)
      trip <- insert_trip
                (trip_of_request request driverId vehicleId newTripId now) ;;
      (* 3. Delete request *)
      delete_requests (fun r => N.eqb (tr_id r) requestId) ;;;
      (* 4. Update driver status *)
      update_drivers (fun d => N.eqb (dp_id d) driverId)
                     (set_is_available false) ;;;
      (* 5. Notify rider *)
      riderProfile <- select_single rider_profiles
                        (fun p => col_is (tr_rider_id request) (rp_id p)) ;;
      match riderProfile, trip with
      | Some riderProfile, Some trip =>
          insert_notification
            {| n_user_id := rp_user_id riderProfile;
               n_title := "Driver Assigned!";
               n_notification_type := "trip_accepted";
               n_related_entity_id := Some (t_id trip) |} ;;;
          ret trip
      | _, _ => throw TypeError
      end
  end.

(** async function startTrip(tripId) *)
Definition startTrip (tripId : uuid) (now : timestamptz) : M unit :=
  update_trips (fun t => N.eqb (t_id t) tripId) (set_picked_up now).

(** Modelled from the spec: the stored procedures [increment_rider_trips]
    and [increment_driver_trips], which [completeTrip] calls and the sources
    do not define; "triggers rider/driver trip-count ... updates". *)
Definition increment_rider_trips (p_rider_id : option uuid) : M unit :=
  write (with_rider_profiles
           (update_where (fun r => col_is p_rider_id (rp_id r)) add_rider_trip)).

Definition increment_driver_trips (p_driver_id : option uuid) : M unit :=
  write (with_driver_profiles
           (update_where (fun d => col_is p_driver_id (dp_id d)) add_driver_trip)).

(** async function completeTrip(tripId, actualDistance, actualFare) *)
Definition completeTrip (tripId : uuid) (actualDistance actualFare : Q)
  (now : timestamptz) : M unit :=
  trip <- update_trips_single (fun t => N.eqb (t_id t) tripId)
            (completed_values now actualDistance actualFare) ;;
  match trip with
  | None => throw TypeError
  | Some trip =>
      (* Update statistics *)
      increment_rider_trips (t_rider_id trip) ;;;
      increment_driver_trips (t_driver_id trip) ;;;
      (* Set driver available *)
      update_drivers (fun d => col_is (t_driver_id trip) (dp_id d))
                     (set_is_available true)
  end.

(** The columns every INSERT of the list names must be columns of the
    table. *)
Definition columns_exist (table named : list string) : bool :=
  forallb (fun c => existsb (String.eqb c) table) named.

(** CREATE FUNCTION process_trip_refund(p_trip_id, p_refund_amount)
    RETURNS JSONB; the result is the [success] member.  The literal
    'refunded' is read as a [trip_status] (22P02, invalid input value for
    enum, when it is no label of the type) and the INSERT names its columns
    (42703, undefined column, when the table has none of that name). *)
Definition process_trip_refund (p_trip_id : uuid) (p_refund_amount : Q)
  (db : database) : database * sql_result bool :=
  (* Update trip *)
  match trip_status_of_label "refunded" with
  | None => (db, Raised "22P02")
  | Some status =>
      let updated :=
        with_trips (update_where (fun t => N.eqb (t_id t) p_trip_id)
                      (set_status_less status p_refund_amount)) db in
      (* Create refund transaction *)
      if columns_exist payment_transactions_columns
           ["trip_id"; "amount"; "status"; "payment_method"]%string
      then (with_payment_transactions
              (fun rows => rows ++ [{| pt_user_id := None;
                                       pt_subscription_id := None;
                                       pt_amount := - p_refund_amount;
                                       pt_payment_method := "refund";
                                       pt_status := pay_completed |}])
              updated,
            Rows true)
      else (db, Raised "42703")
  end.

(** async function processRefund(tripId, amount):
    [const { data, error } = await supabase.rpc('process_trip_refund', ...);
     if (error) throw error; return data] *)
Definition processRefund (tripId : uuid) (amount : Q) : M bool :=
  fun db =>
    match process_trip_refund tripId amount db with
    | (db', Rows data) => (db', Returned data)
    | (db', Raised sqlstate) => (db', Thrown (PostgrestError sqlstate))
    end.

(** async function recordDriverLocation(tripId, driverId, latitude,
    longitude, speed).  [recorded] and [updated] are the two readings of
    [new Date()]. *)
Definition recordDriverLocation (tripId driverId : uuid)
  (latitude longitude speed : Q) (recorded updated : timestamptz) : M unit :=
  insert_location_sample
    {| lh_trip_id := tripId; lh_driver_id := driverId;
       lh_latitude := latitude; lh_longitude := longitude;
       lh_location := POINT longitude latitude;
       lh_speed_kmh := speed; lh_recorded_at := recorded |} ;;;
  (* Also update driver's current location *)
  update_drivers (fun d => N.eqb (dp_id d) driverId)
                 (set_current_location (POINT longitude latitude) updated).

(** [.lt('expires_at', now)]: NULL is not smaller than anything. *)
Definition expires_before (now : timestamptz) (r : trip_request) : bool :=
  match tr_expires_at r with
  | Some e => Z.ltb e now
  | None => false
  end.

(** "Clean up expired requests (run periodically)":
    [.delete().lt('expires_at', now).eq('status', 'requested')] *)
Definition cleanupExpiredRequests (now : timestamptz) : M unit :=
  delete_requests
    (fun r => expires_before now r && trip_status_eqb (tr_status r) requested).

Section RequestTrip.

(** [calculateDistance], called by [requestTrip] and not defined in the
    sources. *)
Variable calculateDistance : Location -> Location -> Q.
Variable cfg : system_config.

(** async function requestTrip(riderId, pickup, destination).
    [newRequestId] is the generated key and [now] the clock reading. *)
Definition requestTrip (riderId : uuid) (pickup destination : Location)
  (newRequestId : uuid) (now : timestamptz) : M (option trip_request) :=
  (* 1. Check rider subscription *)
  rider <- select_single rider_profiles (fun p => N.eqb (rp_id p) riderId) ;;
  match rider with
  | None => throw TypeError
  | Some rider =>
      if negb (isActive rider now)
      then throw (Error "Subscription required to request trips")
      else
        (* 2. Calculate fare *)
        let distance := calculateDistance pickup destination in
        let estimatedFare := calculateFare cfg distance in
        (* 3. Create trip request *)
        insert_request
          {| tr_id := newRequestId;
             tr_rider_id := Some riderId;
             tr_pickup := pickup;
             tr_destination := destination;
             tr_trip_type := short_drop;
             tr_estimated_distance_km := Some distance;
             tr_estimated_fare := Some estimatedFare;
             tr_status := requested;
             tr_expires_at := Some (now + 10 * 60 * 1000)%Z;
             tr_created_at := now |}
  end.

End RequestTrip.

(* ================================================================== *)
(** ** The accept path of sections 2.5 and 2.6 *)

Section AcceptTripRequest.

(** [isNightTime], called by [createTripFromRequest] and not defined in the
    sources. *)
Variable isNightTime : timestamptz -> bool.

(** The row [createTripFromRequest] inserts: no vehicle, and the night flag
    of the moment of acceptance. *)
Definition trip_from_request (request : trip_request) (driverId id : uuid)
  (now : timestamptz) : trip :=
  {| t_id := id;
     t_rider_id := tr_rider_id request;
     t_driver_id := Some driverId;
     t_vehicle_id := None;
     t_pickup := tr_pickup request;
     t_destination := tr_destination request;
     t_trip_type := tr_trip_type request;
     t_status := accepted;
     t_estimated_distance_km := tr_estimated_distance_km request;
     t_actual_distance_km := None;
     t_estimated_fare := tr_estimated_fare request;
     t_actual_fare := None;
     t_requested_at := tr_created_at request;
     t_accepted_at := Some now;
     t_picked_up_at := None;
     t_completed_at := None;
     t_is_night_trip := isNightTime now |}.

(** async function createTripFromRequest(requestId, driverId) *)
Definition createTripFromRequest (requestId driverId : uuid)
  (newTripId : uuid) (now : timestamptz) : M (option trip) :=
  (* Get request details *)
  request <- select_single trip_requests (fun r => N.eqb (tr_id r) requestId) ;;
  match request with
  | None => throw TypeError
  | Some request =>
      (* Create trip record *)
      trip <- insert_trip (trip_from_request request driverId newTripId now) ;;
      (* Delete the request *)
      delete_requests (fun r => N.eqb (tr_id r) requestId) ;;;
      ret trip
  end.

(** async function acceptTripRequest(requestId, driverId) *)
Definition acceptTripRequest (requestId driverId : uuid)
  (newTripId : uuid) (now : timestamptz) : M (option trip) :=
  request <- select_single trip_requests (open_request requestId) ;;
  match request with
  | None => throw (Error "Request not available")
  | Some _ =>
      (* Create trip and delete request *)
      trip <- createTripFromRequest requestId driverId newTripId now ;;
      (* Mark driver as busy *)
      update_drivers (fun d => N.eqb (dp_id d) driverId)
                     (set_is_available false) ;;;
      ret trip
  end.

End AcceptTripRequest.

(* ================================================================== *)
(** ** Overlapping calls of [acceptRequest]

    Between two [await]s of one call the calls of other drivers may run.
    A call in flight is its program point together with the local
    variables that are live there; one step performs the next database
    call of the source. *)

Record accept_call := {
  call_requestId : uuid;
  call_driverId : uuid;
  call_vehicleId : uuid;
  call_newTripId : uuid;
  call_now : timestamptz
}.

Inductive accept_pc :=
| AtGetRequest
| AtCreateTrip (request : trip_request)
| AtDeleteRequest (request : trip_request) (trip : option trip)
| AtUpdateDriver (request : trip_request) (trip : option trip)
| AtSelectRider (request : trip_request) (trip : option trip)
| AtNotify (riderProfile : rider_profile) (trip : trip)
| Finished (result : outcome trip).

Definition await {A : Type} (m : M A) (k : A -> accept_pc)
  (db : database) : database * accept_pc :=
  match m db with
  | (db', Returned a) => (db', k a)
  | (db', Thrown e) => (db', Finished (Thrown e))
  end.

Definition accept_step (c : accept_call) (pc : accept_pc)
  : database -> database * accept_pc :=
  match pc with
  | AtGetRequest =>
      await (select_single trip_requests (open_request (call_requestId c)))
        (fun request =>
           match request with
           | None => Finished (Thrown (Error "Request no longer available"))
           | Some request => AtCreateTrip request
           end)
  | AtCreateTrip request =>
      await (insert_trip
               (trip_of_request request (call_driverId c) (call_vehicleId c)
                  (call_newTripId c) (call_now c)))
        (fun trip => AtDeleteRequest request trip)
  | AtDeleteRequest request trip =>
      await (delete_requests (fun r => N.eqb (tr_id r) (call_requestId c)))
        (fun _ => AtUpdateDriver request trip)
  | AtUpdateDriver request trip =>
      await (update_drivers (fun d => N.eqb (dp_id d) (call_driverId c))
               (set_is_available false))
        (fun _ => AtSelectRider request trip)
  | AtSelectRider request trip =>
      await (select_single rider_profiles
               (fun p => col_is (tr_rider_id request) (rp_id p)))
        (fun riderProfile =>
           match riderProfile, trip with
           | Some riderProfile, Some trip => AtNotify riderProfile trip
           | _, _ => Finished (Thrown TypeError)
           end)
  | AtNotify riderProfile trip =>
      await (insert_notification
               {| n_user_id := rp_user_id riderProfile;
                  n_title := "Driver Assigned!";
                  n_notification_type := "trip_accepted";
                  n_related_entity_id := Some (t_id trip) |})
        (fun _ => Finished (Returned trip))
  | Finished result => fun db => (db, Finished result)
  end.

(** One call run without interruption: its six database calls in a row. *)
Definition run_alone (c : accept_call) (db : database) : database * accept_pc :=
  let '(db1, pc1) := accept_step c AtGetRequest db in
  let '(db2, pc2) := accept_step c pc1 db1 in
  let '(db3, pc3) := accept_step c pc2 db2 in
  let '(db4, pc4) := accept_step c pc3 db3 in
  let '(db5, pc5) := accept_step c pc4 db4 in
  accept_step c pc5 db5.

Definition thread : Type := accept_call * accept_pc.

Definition spawn (calls : list accept_call) : list thread :=
  map (fun c => (c, AtGetRequest)) calls.

(** The scheduler lets call number [i] perform its next database call. *)
Fixpoint step_thread (i : nat) (threads : list thread) (db : database)
  : database * list thread :=
  match threads, i with
  | [], _ => (db, [])
  | (c, pc) :: rest, O =>
      let '(db', pc') := accept_step c pc db in (db', (c, pc') :: rest)
  | th :: rest, S j =>
      let '(db', rest') := step_thread j rest db in (db', th :: rest')
  end.

Fixpoint run_schedule (schedule : list nat) (threads : list thread)
  (db : database) : database * list thread :=
  match schedule with
  | [] => (db, threads)
  | i :: later =>
      let '(db', threads') := step_thread i threads db in
      run_schedule later threads' db'
  end.

Definition finished (th : thread) : bool :=
  match snd th with
  | Finished _ => true
  | _ => false
  end.

Definition returned_trip (th : thread) : bool :=
  match snd th with
  | Finished (Returned _) => true
  | _ => false
  end.

Definition successes (threads : list thread) : nat :=
  List.length (filter returned_trip threads).

(** Calls made one after the other, each finishing before the next starts. *)
Definition accept (c : accept_call) : M trip :=
  acceptRequest (call_requestId c) (call_driverId c) (call_vehicleId c)
    (call_newTripId c) (call_now c).

Fixpoint run_in_turn (calls : list accept_call) (db : database)
  : database * list (outcome trip) :=
  match calls with
  | [] => (db, [])
  | c :: rest =>
      let '(db1, r) := accept c db in
      let '(db2, rs) := run_in_turn rest db1 in
      (db2, r :: rs)
  end.

(** What a first call needs of the database to go through: the request is
    open, the new trip passes its constraints, the rider profile of the
    request is there. *)
Definition acceptable (db : database) (c : accept_call)
  (request : trip_request) (riderProfile : rider_profile) : Prop :=
  single (filter (open_request (call_requestId c)) (trip_requests db))
    = Some request
  /\ trip_insertable db
       (trip_of_request request (call_driverId c) (call_vehicleId c)
          (call_newTripId c) (call_now c)) = true
  /\ single (filter (fun p => col_is (tr_rider_id request) (rp_id p))
               (rider_profiles db)) = Some riderProfile.

(* ================================================================== *)
(** ** Histories of operations *)

Inductive operation :=
| OpAccept (c : accept_call)
| OpStart (tripId : uuid) (now : timestamptz)
| OpComplete (tripId : uuid) (actualDistance actualFare : Q) (now : timestamptz)
| OpRefund (tripId : uuid) (amount : Q)
| OpRecordLocation (tripId driverId : uuid) (latitude longitude speed : Q)
    (recorded updated : timestamptz)
| OpCleanup (now : timestamptz).

Definition perform (op : operation) (db : database) : database :=
  match op with
  | OpAccept c => fst (accept c db)
  | OpStart tripId now => fst (startTrip tripId now db)
  | OpComplete tripId d f now => fst (completeTrip tripId d f now db)
  | OpRefund tripId amount => fst (processRefund tripId amount db)
  | OpRecordLocation tripId driverId la lo sp r u =>
      fst (recordDriverLocation tripId driverId la lo sp r u db)
  | OpCleanup now => fst (cleanupExpiredRequests now db)
  end.

Definition perform_all (ops : list operation) (db : database) : database :=
  fold_left (fun db op => perform op db) ops db.

(** accepted and picked_up are the states of a trip under way. *)
Definition non_terminal (s : trip_status) : bool :=
  match s with
  | accepted | picked_up => true
  | _ => false
  end.

(** "A driver with a non-terminal assigned trip has isAvailable = false". *)
Definition availability_invariant (db : database) : bool :=
  forallb
    (fun t =>
       negb (non_terminal (t_status t))
       || forallb (fun d => negb (col_is (t_driver_id t) (dp_id d))
                            || negb (dp_is_available d))
            (driver_profiles db))
    (trips db).

(** The status of the trip with a given id, when exactly one row has it. *)
Definition status_of (db : database) (tripId : uuid) : option trip_status :=
  option_map t_status (single (filter (fun t => N.eqb (t_id t) tripId) (trips db))).

(** The rows of a driver. *)
Definition driver_rows (db : database) (driverId : uuid) : list driver_profile :=
  filter (fun d => N.eqb (dp_id d) driverId) (driver_profiles db).

(* ================================================================== *)
(** ** Sample data *)

Module Sample.

Definition georgetown_mall : Location :=
  {| loc_lat := 68013 # 10000; loc_lng := - (581551 # 10000);
     loc_address := "Georgetown City Mall" |}.

Definition sheriff_street : Location :=
  {| loc_lat := 681 # 100; loc_lng := - (5816 # 100);
     loc_address := "Sheriff Street, Georgetown" |}.

Definition here : geography := POINT 0 0.

(** A stand-in for the PostGIS distance on the sample points: 100 km to
    the degree along each axis. *)
Definition grid_metres (a b : geography) : Q :=
  100000 * (Qabs (lat a - lat b) + Qabs (lng a - lng b)).

Definition a_user (id : uuid) : user_row :=
  {| u_id := id; u_full_name := "user" |}.

Definition a_rider (id user : uuid) (status : subscription_status)
  (end_date : option timestamptz) : rider_profile :=
  {| rp_id := id; rp_user_id := Some user;
     rp_subscription_status := status;
     rp_subscription_end_date := end_date;
     rp_trial_end_date := None;
     rp_total_trips := 0 |}.

(** An approved driver who is online and available. *)
Definition a_driver (id user : uuid) (status : subscription_status)
  (end_date : option timestamptz) (where_ : option geography)
  (stars : Q) : driver_profile :=
  {| dp_id := id; dp_user_id := Some user;
     dp_verification_status := approved;
     dp_subscription_status := status;
     dp_subscription_end_date := end_date;
     dp_is_online := true;
     dp_is_available := true;
     dp_current_location := where_;
     dp_location_updated_at := None;
     dp_total_trips := 0;
     dp_rating_average := stars |}.

Definition a_vehicle (id owner : uuid) : vehicle :=
  {| v_id := id; v_driver_id := Some owner;
     v_make := "Toyota"; v_model := "Axio"; v_is_primary := true |}.

Definition a_request (id rider_id : uuid) (created expires : timestamptz)
  : trip_request :=
  {| tr_id := id; tr_rider_id := Some rider_id;
     tr_pickup := georgetown_mall; tr_destination := sheriff_street;
     tr_trip_type := short_drop;
     tr_estimated_distance_km := Some (25 # 10);
     tr_estimated_fare := Some 800;
     tr_status := requested;
     tr_expires_at := Some expires;
     tr_created_at := created |}.

Definition empty_db : database :=
  {| users := []; rider_profiles := []; driver_profiles := [];
     vehicles := []; trip_requests := []; trips := [];
     location_history := []; payment_transactions := [];
     notifications := [] |}.

(** One rider (profile 1) with two open requests 31 and 32, created at
    400 and expiring at 1000; two drivers 11 and 12 with their vehicles
    21 and 22. *)
Definition dispatch_db : database :=
  {| users := [a_user 101; a_user 111; a_user 112];
     rider_profiles := [a_rider 1 101 sub_active (Some 5000%Z)];
     driver_profiles :=
       [a_driver 11 111 sub_active (Some 5000%Z) (Some here) 5;
        a_driver 12 112 sub_active (Some 5000%Z) (Some here) 5];
     vehicles := [a_vehicle 21 11; a_vehicle 22 12];
     trip_requests := [a_request 31 1 400 1000; a_request 32 1 400 1000];
     trips := []; location_history := []; payment_transactions := [];
     notifications := [] |}.

(** Driver 11 accepts request 31 at time 500 (trip 41); driver 12 does the
    same (trip 42); driver 11 accepts request 32 (trip 43). *)
Definition call_11 : accept_call :=
  {| call_requestId := 31; call_driverId := 11; call_vehicleId := 21;
     call_newTripId := 41; call_now := 500 |}.

Definition call_12 : accept_call :=
  {| call_requestId := 31; call_driverId := 12; call_vehicleId := 22;
     call_newTripId := 42; call_now := 500 |}.

Definition call_11_again : accept_call :=
  {| call_requestId := 32; call_driverId := 11; call_vehicleId := 21;
     call_newTripId := 43; call_now := 600 |}.

(** The same call made when request 31 has been expired for a long time. *)
Definition late_call : accept_call :=
  {| call_requestId := 31; call_driverId := 11; call_vehicleId := 21;
     call_newTripId := 41; call_now := 9000 |}.

(** Both calls read the request before either deletes it. *)
Definition racing_schedule : list nat :=
  [0; 1; 0; 1; 0; 1; 0; 1; 0; 1; 0; 1]%nat.

(** A rider on trial whose subscription runs until 5000. *)
Definition trial_db : database :=
  {| users := [a_user 101];
     rider_profiles := [a_rider 1 101 sub_trial (Some 5000%Z)];
     driver_profiles := []; vehicles := []; trip_requests := [];
     trips := []; location_history := []; payment_transactions := [];
     notifications := [] |}.

Definition flat_distance (a b : Location) : Q :=
  grid_metres (POINT (loc_lng a) (loc_lat a)) (POINT (loc_lng b) (loc_lat b))
  / 1000.

(** Three drivers 1.2 km, 0.5 km and 3.0 km from [here]. *)
Definition three_drivers_db : database :=
  {| users := [a_user 111; a_user 112; a_user 113];
     rider_profiles := [];
     driver_profiles :=
       [a_driver 11 111 sub_active (Some 5000%Z) (Some (POINT 0 (12 # 1000))) 5;
        a_driver 12 112 sub_active (Some 5000%Z) (Some (POINT 0 (5 # 1000))) 5;
        a_driver 13 113 sub_trial (Some 5000%Z) (Some (POINT 0 (30 # 1000))) 5];
     vehicles := [a_vehicle 21 11];
     trip_requests := []; trips := []; location_history := [];
     payment_transactions := []; notifications := [] |}.




(** Twenty-five drivers 1 .. 25, all at [here]. *)
Definition crowd : list N :=
  map N.of_nat (seq 1 25).

Definition crowd_db : database :=
  {| users := map a_user crowd;
     rider_profiles := [];
     driver_profiles :=
       map (fun i => a_driver i i sub_active (Some 5000%Z) (Some here) 5) crowd;
     vehicles := []; trip_requests := []; trips := [];
     location_history := []; payment_transactions := [];
     notifications := [] |}.

End Sample.

(** Histories over the sample data. *)
Module History.

(** Driver 11 accepts request 31 (trip 41), starts the trip and completes
    it. *)
Definition completed_db : database :=
  perform_all
    [OpAccept Sample.call_11; OpStart 41 600; OpComplete 41 3 900 700]
    Sample.dispatch_db.

(** Driver 11 accepts request 31 only. *)
Definition accepted_db : database :=
  perform (OpAccept Sample.call_11) Sample.dispatch_db.

(** The completed trip as it is stored. *)
Definition completed_trip : trip :=
  set_completed 700 3 900
    (set_picked_up 600
       (trip_of_request (Sample.a_request 31 1 400 1000) 11 21 41 500)).

(** Driver 11 accepts request 31, then request 32 while on the first trip,
    and completes the first trip. *)
Definition two_trips_db : database :=
  perform_all
    [OpAccept Sample.call_11; OpAccept Sample.call_11_again;
     OpComplete 41 3 900 700]
    Sample.dispatch_db.

End History.

(* ================================================================== *)
(** ** The subscription expiry job (section 4.2 of the guide) *)

(** [for (const x of xs) { await ... }] *)
Fixpoint for_each {A : Type} (xs : list A) (body : A -> M unit) : M unit :=
  match xs with
  | [] => ret tt
  | x :: rest => body x ;;; for_each rest body
  end.

(** [.eq('subscription_status', 'active').lt('subscription_end_date', now)]:
    a NULL end date is not smaller than anything. *)
Definition lapsed (now : timestamptz) (status : subscription_status)
  (end_date : option timestamptz) : bool :=
  subscription_status_eqb status sub_active
  && match end_date with
     | Some e => Z.ltb e now
     | None => false
     end.

Definition lapsed_rider (now : timestamptz) (r : rider_profile) : bool :=
  lapsed now (rp_subscription_status r) (rp_subscription_end_date r).

Definition lapsed_driver_row (now : timestamptz) (d : driver_profile) : bool :=
  lapsed now (dp_subscription_status d) (dp_subscription_end_date d).

(** [{ subscription_status: 'expired' }] *)
Definition expire_rider (r : rider_profile) : rider_profile :=
  {| rp_id := rp_id r; rp_user_id := rp_user_id r;
     rp_subscription_status := sub_expired;
     rp_subscription_end_date := rp_subscription_end_date r;
     rp_trial_end_date := rp_trial_end_date r;
     rp_total_trips := rp_total_trips r |}.

(** [{ subscription_status: 'expired', is_online: false,
       is_available: false }] *)
Definition expire_driver (d : driver_profile) : driver_profile :=
  {| dp_id := dp_id d; dp_user_id := dp_user_id d;
     dp_verification_status := dp_verification_status d;
     dp_subscription_status := sub_expired;
     dp_subscription_end_date := dp_subscription_end_date d;
     dp_is_online := false;
     dp_is_available := false;
     dp_current_location := dp_current_location d;
     dp_location_updated_at := dp_location_updated_at d;
     dp_total_trips := dp_total_trips d;
     dp_rating_average := dp_rating_average d |}.

Definition subscription_expired_notice (user : option uuid) : notification :=
  {| n_user_id := user;
     n_title := "Subscription Expired";
     n_notification_type := "subscription_expired";
     n_related_entity_id := None |}.

(** The body of the rider loop; [rider] is the selected (id, user_id). *)
Definition expire_one_rider (rider : uuid * option uuid) : M unit :=
  write (with_rider_profiles
           (update_where (fun r => N.eqb (rp_id r) (fst rider)) expire_rider)) ;;;
  insert_notification (subscription_expired_notice (snd rider)).

(** The body of the driver loop. *)
Definition expire_one_driver (driver : uuid * option uuid) : M unit :=
  write (with_driver_profiles
           (update_where (fun d => N.eqb (dp_id d) (fst driver)) expire_driver)) ;;;
  insert_notification (subscription_expired_notice (snd driver)).

(** async function expireSubscriptions(); [now] is the one clock reading
    taken at the start. *)
Definition expireSubscriptions (now : timestamptz) : M unit :=
  (* Find expired rider subscriptions *)
  expiredRiders <- read (fun db =>
                     map (fun r => (rp_id r, rp_user_id r))
                       (filter (lapsed_rider now) (rider_profiles db))) ;;
  (* Update them *)
  for_each expiredRiders expire_one_rider ;;;
  (* Same for drivers *)
  expiredDrivers <- read (fun db =>
                      map (fun d => (dp_id d, dp_user_id d))
                        (filter (lapsed_driver_row now) (driver_profiles db))) ;;
  for_each expiredDrivers expire_one_driver.

(* ================================================================== *)
(** ** Dashboard metrics (section 6.1 of the guide) *)

Record metrics := {
  activeDrivers : nat;
  activeTrips : nat;
  pendingRequests : nat;
  todayTripsCount : nat;
  todayRevenue : Q
}.

(** [.select('*', { count: 'exact', head: true })] with its filters. *)
Definition count_where {A : Type} (table : database -> list A)
  (p : A -> bool) : M nat :=
  read (fun db => List.length (filter p (table db))).

(** [.gte('completed_at', today).eq('status', 'completed')] *)
Definition completed_since (today : timestamptz) (t : trip) : bool :=
  match t_completed_at t with
  | Some c => Z.leb today c
  | None => false
  end
  && trip_status_eqb (t_status t) completed.

(** [(t.actual_fare || 0)] *)
Definition fare_or_zero (t : trip) : Q :=
  match t_actual_fare t with
  | Some f => f
  | None => 0
  end.

(** [todayTrips.reduce((sum, t) => sum + (t.actual_fare || 0), 0)] *)
Definition revenue (todayTrips : list trip) : Q :=
  fold_left (fun sum t => sum + fare_or_zero t) todayTrips 0.

(** async function getDashboardMetrics(); [today] is the clock reading
    wound back to the start of the day by [setHours(0, 0, 0, 0)]. *)
Definition getDashboardMetrics (today : timestamptz) : M metrics :=
  (* Active drivers count *)
  activeDrivers <- count_where driver_profiles dp_is_online ;;
  (* Active trips count *)
  activeTrips <- count_where trips
                   (fun t => trip_status_eqb (t_status t) accepted
                             || trip_status_eqb (t_status t) picked_up) ;;
  (* Pending requests count *)
  pendingRequests <- count_where trip_requests
                       (fun r => trip_status_eqb (tr_status r) requested) ;;
  (* Today's completed trips *)
  todayTrips <- read (fun db => filter (completed_since today) (trips db)) ;;
  ret {| activeDrivers := activeDrivers;
         activeTrips := activeTrips;
         pendingRequests := pendingRequests;
         todayTripsCount := List.length todayTrips;
         todayRevenue := revenue todayTrips |}.

(* ================================================================== *)
(** ** The complete trip flow of section 2.5 *)

(** [.from('notifications').insert([...])]: one statement, so the rows are
    stored together or not at all; the result is not read. *)
Definition insert_notifications (ns : list notification) : M unit :=
  write (fun db =>
    if forallb (fun n => references u_id (users db) (n_user_id n)) ns
    then with_notifications (fun rows => rows ++ ns) db
    else db).

Definition trip_completed_notice (user : option uuid) : notification :=
  {| n_user_id := user;
     n_title := "Trip Completed";
     n_notification_type := "trip_completed";
     n_related_entity_id := None |}.

(** async function completeTripFlow(tripId, actualFare, actualDistance) *)
Definition completeTripFlow (tripId : uuid) (actualFare actualDistance : Q)
  (now : timestamptz) : M unit :=
  (* 1. Update trip status *)
  trip <- update_trips_single (fun t => N.eqb (t_id t) tripId)
            (completed_values now actualDistance actualFare) ;;
  match trip with
  | None => throw TypeError
  | Some trip =>
      (* 2. Update rider statistics *)
      increment_rider_trips (t_rider_id trip) ;;;
      (* 3. Update driver statistics and set available *)
      increment_driver_trips (t_driver_id trip) ;;;
      update_drivers (fun d => col_is (t_driver_id trip) (dp_id d))
                     (set_is_available true) ;;;
      (* 4. Send completion notifications *)
      insert_notifications
        [trip_completed_notice (t_rider_id trip);
         trip_completed_notice (t_driver_id trip)]
  end.

(** The database with the notifications table left out of the picture. *)
Definition without_notifications (db : database) : database :=
  with_notifications (fun _ => []) db.

(* ================================================================== *)
(** ** The route of a trip (section 2.7 of the guide) *)

(** The map-friendly point [{ lat, lng, timestamp, speed }]. *)
Record routePoint := {
  route_lat : Q;
  route_lng : Q;
  route_timestamp : timestamptz;
  route_speed : Q
}.

(** "Get trip route for playback":
    [.eq('trip_id', tripId).order('recorded_at', { ascending: true })] *)
Definition routeHistory (tripId : uuid) : M (list location_sample) :=
  read (fun db =>
    order_by_asc (fun s => inject_Z (lh_recorded_at s))
      (filter (fun s => N.eqb (lh_trip_id s) tripId) (location_history db))).

(** "Convert to map-friendly format" *)
Definition routePoints (routeHistory : list location_sample) : list routePoint :=
  map (fun point =>
         {| route_lat := lh_latitude point;
            route_lng := lh_longitude point;
            route_timestamp := lh_recorded_at point;
            route_speed := lh_speed_kmh point |})
      routeHistory.

(* ================================================================== *)
(** ** Bookkeeping used in the statements *)

(** The stored row of a trip, when exactly one row has the id. *)
Definition trip_row (db : database) (tripId : uuid) : option trip :=
  single (filter (fun t => N.eqb (t_id t) tripId) (trips db)).

(** More sample data. *)
Module Sample2.

(** Two riders and two drivers, one of each with a subscription that ended
    at 50 and still says active; users 101, 102, 111, 112. *)
Definition lapsing_db : database :=
  {| users := [Sample.a_user 101; Sample.a_user 102;
               Sample.a_user 111; Sample.a_user 112];
     rider_profiles :=
       [Sample.a_rider 1 101 sub_active (Some 50%Z);
        Sample.a_rider 2 102 sub_trial (Some 50%Z)];
     driver_profiles :=
       [Sample.a_driver 11 111 sub_active (Some 50%Z) (Some Sample.here) 5;
        Sample.a_driver 12 112 sub_active (Some 5000%Z) (Some Sample.here) 4];
     vehicles := []; trip_requests := []; trips := [];
     location_history := []; payment_transactions := [];
     notifications := [] |}.

(** The request [requestTrip] stores for rider 1 at time 100 under id 33. *)
Definition fresh_request : trip_request :=
  {| tr_id := 33; tr_rider_id := Some 1%N;
     tr_pickup := Sample.georgetown_mall;
     tr_destination := Sample.sheriff_street;
     tr_trip_type := short_drop;
     tr_estimated_distance_km :=
       Some (Sample.flat_distance Sample.georgetown_mall Sample.sheriff_street);
     tr_estimated_fare :=
       Some (calculateFare default_config
               (Sample.flat_distance Sample.georgetown_mall
                  Sample.sheriff_street));
     tr_status := requested;
     tr_expires_at := Some 600100%Z;
     tr_created_at := 100 |}.


(** A call in the name of driver 99, who has no profile. *)
Definition call_unknown_driver : accept_call :=
  {| call_requestId := 31; call_driverId := 99; call_vehicleId := 21;
     call_newTripId := 41; call_now := 500 |}.

End Sample2.

(* ================================================================== *)
(** ** Going online and the end of a trial (sections 2.2 and 2.3) *)

(** [{ is_online: true, is_available: true, current_location: POINT(lng
       lat), location_updated_at: now }] *)
Definition set_online (g : geography) (now : timestamptz)
  (d : driver_profile) : driver_profile :=
  {| dp_id := dp_id d; dp_user_id := dp_user_id d;
     dp_verification_status := dp_verification_status d;
     dp_subscription_status := dp_subscription_status d;
     dp_subscription_end_date := dp_subscription_end_date d;
     dp_is_online := true;
     dp_is_available := true;
     dp_current_location := Some g;
     dp_location_updated_at := Some now;
     dp_total_trips := dp_total_trips d;
     dp_rating_average := dp_rating_average d |}.

(** "Driver goes online": the update of driver_profiles by id. *)
Definition goOnline (driverId : uuid) (latitude longitude : Q)
  (now : timestamptz) : M unit :=
  update_drivers (fun d => N.eqb (dp_id d) driverId)
                 (set_online (POINT longitude latitude) now).

(** "Check if trial expired": the rider of a user is looked up, and expired
    and told so when the status is trial and the trial end date is past. *)
Definition checkTrialExpired (userId : uuid) (now : timestamptz) : M unit :=
  rider <- select_single rider_profiles
             (fun r => col_is (rp_user_id r) userId) ;;
  match rider with
  | None => throw TypeError
  | Some rider =>
      if subscription_status_eqb (rp_subscription_status rider) sub_trial
         && Z.ltb (new_Date (rp_trial_end_date rider)) now
      then
        (* Update to expired *)
        write (with_rider_profiles
                 (update_where (fun r => col_is (rp_user_id r) userId)
                    expire_rider)) ;;;
        (* Send notification *)
        insert_notification
          {| n_user_id := Some userId;
             n_title := "Trial Expired";
             n_notification_type := "subscription_expired";
             n_related_entity_id := None |}
      else ret tt
  end.

(** A rider on trial until 50, with a subscription end date of 5000. *)
Module Sample3.

Definition trial_rider : rider_profile :=
  {| rp_id := 1; rp_user_id := Some 101%N;
     rp_subscription_status := sub_trial;
     rp_subscription_end_date := Some 5000%Z;
     rp_trial_end_date := Some 50%Z;
     rp_total_trips := 0 |}.

Definition trial_ending_db : database :=
  {| users := [Sample.a_user 101];
     rider_profiles := [trial_rider];
     driver_profiles := []; vehicles := []; trip_requests := [];
     trips := []; location_history := []; payment_transactions := [];
     notifications := [] |}.

(** Driver 11, approved and paid up, offline and without a position. *)
Definition offline_driver : driver_profile :=
  {| dp_id := 11; dp_user_id := Some 111%N;
     dp_verification_status := approved;
     dp_subscription_status := sub_active;
     dp_subscription_end_date := Some 5000%Z;
     dp_is_online := false;
     dp_is_available := false;
     dp_current_location := None;
     dp_location_updated_at := None;
     dp_total_trips := 0;
     dp_rating_average := 5 |}.

Definition offline_db : database :=
  {| users := [Sample.a_user 111];
     rider_profiles := [];
     driver_profiles := [offline_driver];
     vehicles := []; trip_requests := []; trips := [];
     location_history := []; payment_transactions := [];
     notifications := [] |}.

End Sample3.

(* ================================================================== *)
(** * Properties *)

(** ** Enumerations and tables *)

Lemma trip_status_eqb_eq a b : trip_status_eqb a b = true <-> a = b.
Proof. destruct a, b; simpl; split; intro H; congruence. Qed.

Lemma subscription_status_eqb_eq a b :
  subscription_status_eqb a b = true <-> a = b.
Proof. destruct a, b; simpl; split; intro H; congruence. Qed.


Lemma update_where_In {A : Type} (p : A -> bool) (f : A -> A) rows r' :
  In r' (update_where p f rows) ->
  exists r, In r rows /\ r' = (if p r then f r else r).
Proof.
  unfold update_where. rewrite in_map_iff.
  intros [r [Hr Hin]]. exists r. split; [assumption | now symmetry].
Qed.

Lemma delete_where_none {A : Type} (p : A -> bool) rows :
  filter p (delete_where p rows) = [].
Proof.
  unfold delete_where. induction rows as [|r rows IH]; simpl; [reflexivity|].
  destruct (p r) eqn:E; simpl; [assumption|]. now rewrite E.
Qed.

Lemma filter_and_nil {A : Type} (p q : A -> bool) rows :
  filter p rows = [] -> filter (fun r => p r && q r) rows = [].
Proof.
  induction rows as [|r rows IH]; simpl; [reflexivity|].
  destruct (p r); simpl; [discriminate | assumption].
Qed.

Lemma filter_filter_comm {A : Type} (p q : A -> bool) rows :
  filter p (filter q rows) = filter q (filter p rows).
Proof.
  induction rows as [|r rows IH]; simpl; [reflexivity|].
  destruct (p r) eqn:Ep, (q r) eqn:Eq; simpl;
    rewrite ?Ep, ?Eq, IH; reflexivity.
Qed.

Lemma filter_update_where {A : Type} (p : A -> bool) (f : A -> A) rows :
  (forall r, p (f r) = p r) ->
  filter p (update_where p f rows) = map f (filter p rows).
Proof.
  intro Hp. unfold update_where.
  induction rows as [|r rows IH]; simpl; [reflexivity|].
  destruct (p r) eqn:E; simpl.
  - rewrite Hp, E. simpl. now rewrite IH.
  - rewrite E. assumption.
Qed.

Lemma single_map {A B : Type} (f : A -> B) rows r :
  single rows = Some r -> single (map f rows) = Some (f r).
Proof.
  destruct rows as [|x [|y rows]]; simpl; try discriminate.
  intro H. now inversion H.
Qed.

Lemma single_some {A : Type} (rows : list A) r :
  single rows = Some r -> rows = [r].
Proof.
  destruct rows as [|x [|y rows]]; simpl; try discriminate.
  intro H. now inversion H.
Qed.

Lemma firstn_incl {A : Type} n (l : list A) x : In x (firstn n l) -> In x l.
Proof.
  revert l. induction n as [|n IH]; intros [|y l]; simpl; try tauto.
  intros [H | H]; [now left | right; now apply IH].
Qed.

(* ================================================================== *)
(** ** ORDER BY *)

Section OrderBy.

Variable A : Type.
Variable key : A -> Q.

Lemma insert_by_In r rows x :
  In x (insert_by key r rows) <-> x = r \/ In x rows.
Proof.
  induction rows as [|y rows IH]; simpl.
  - intuition congruence.
  - destruct (Qle_bool (key r) (key y)); simpl; [intuition congruence|].
    rewrite IH. intuition congruence.
Qed.


Lemma insert_by_length r rows :
  List.length (insert_by key r rows) = S (List.length rows).
Proof.
  induction rows as [|y rows IH]; simpl; [reflexivity|].
  destruct (Qle_bool (key r) (key y)); simpl; [reflexivity | now rewrite IH].
Qed.

Lemma insert_by_sorted r rows :
  StronglySorted (ascending key) rows -> StronglySorted (ascending key) (insert_by key r rows).
Proof.
  induction 1 as [|y rows Hs IH Hall]; simpl.
  - constructor; constructor.
  - destruct (Qle_bool (key r) (key y)) eqn:E.
    + apply Qle_bool_iff in E.
      constructor; [constructor; assumption|].
      constructor; [exact E|].
      eapply Forall_impl; [|exact Hall].
      intros z Hz. unfold ascending in *. eapply Qle_trans; eassumption.
    + assert (Hyr : key y <= key r).
      { apply Qlt_le_weak, Qnot_le_lt. intro C.
        apply Qle_bool_iff in C. congruence. }
      constructor; [assumption|].
      apply Forall_forall. intros z Hz.
      apply insert_by_In in Hz. destruct Hz as [-> | Hz]; [exact Hyr|].
      rewrite Forall_forall in Hall. now apply Hall.
Qed.

Lemma order_by_asc_sorted rows :
  StronglySorted (ascending key) (order_by_asc key rows).
Proof.
  unfold order_by_asc. induction rows as [|y rows IH]; simpl.
  - constructor.
  - now apply insert_by_sorted.
Qed.


End OrderBy.

Lemma insert_by_perm {A : Type} (key : A -> Q) r rows :
  Permutation (r :: rows) (insert_by key r rows).
Proof.
  induction rows as [|x rows IH]; simpl; [apply Permutation_refl|].
  destruct (Qle_bool (key r) (key x)); [apply Permutation_refl|].
  eapply Permutation_trans; [apply perm_swap|].
  now apply perm_skip.
Qed.

Lemma order_by_asc_perm {A : Type} (key : A -> Q) rows :
  Permutation rows (order_by_asc key rows).
Proof.
  unfold order_by_asc. induction rows as [|x rows IH]; simpl.
  - apply Permutation_refl.
  - eapply Permutation_trans; [|apply insert_by_perm].
    now apply perm_skip.
Qed.


(* ================================================================== *)
(** ** Nearby drivers *)

Section GeoIndexProperties.

Variable ST_Distance : geography -> geography -> Q.

Lemma from_clause_driver db dp u v :
  In (dp, u, v) (from_clause db) -> In dp (driver_profiles db).
Proof.
  unfold from_clause. rewrite in_flat_map.
  intros [dp' [Hdp H]]. rewrite in_flat_map in H.
  destruct H as [u' [_ H]].
  destruct (col_is (dp_user_id dp') (u_id u')); [|contradiction].
  rewrite in_map_iff in H. destruct H as [v' [E _]].
  inversion E; subst. assumption.
Qed.

(** The declared function never hands a row over: the query's
    [driver_name] is VARCHAR(255) and its [distance_km] double precision,
    where RETURNS TABLE declares TEXT and DECIMAL. *)
Lemma find_nearby_drivers_raises db la lo radius :
  find_nearby_drivers ST_Distance db la lo radius = Raised "42804".
Proof. reflexivity. Qed.

(** The executable query is one of the results SQL allows. *)
Lemma return_query_is_a_result db la lo radius :
  return_query_yields ST_Distance db la lo radius
    (return_query ST_Distance db la lo radius).
Proof.
  exists (order_by_asc distance_km
            (map (select_list ST_Distance (POINT lo la))
               (matching_rows ST_Distance db (POINT lo la) radius))).
  split; [apply order_by_asc_perm|].
  split; [apply order_by_asc_sorted | reflexivity].
Qed.

Lemma return_query_row db la lo radius out row :
  return_query_yields ST_Distance db la lo radius out ->
  In row out ->
  exists joined,
    In joined (from_clause db)
    /\ where_clause ST_Distance (POINT lo la) radius joined = true
    /\ row = select_list ST_Distance (POINT lo la) joined.
Proof.
  intros [sorted [Hp [_ ->]]] H. unfold limit, matching_rows in *.
  apply firstn_incl in H.
  apply (Permutation_in _ (Permutation_sym Hp)) in H.
  rewrite in_map_iff in H. destruct H as [joined [E H]].
  apply filter_In in H. destruct H as [Hin Hw].
  exists joined. repeat split; [assumption | assumption | now symmetry].
Qed.

Lemma return_query_length db la lo radius out :
  return_query_yields ST_Distance db la lo radius out ->
  List.length out
  = Nat.min 20 (List.length (matching_rows ST_Distance db (POINT lo la) radius)).
Proof.
  intros [sorted [Hp [_ ->]]]. unfold limit.
  rewrite length_firstn, <- (Permutation_length Hp), length_map.
  reflexivity.
Qed.


End GeoIndexProperties.



(** C10: whatever the point and the radius, the query of
    [find_nearby_drivers] yields at most 20 rows: 20 of the qualifying rows
    when there are more, all of them otherwise.  The cap is the constant of
    the LIMIT clause; the function has no limit argument.  With 25
    qualifying drivers, 20 come out.  A call of the function itself hands
    no row over at all. *)
Theorem C10_nearby_drivers_at_most_twenty
  (ST_Distance : geography -> geography -> Q) :
  (forall (db : database) (la lo radius : Q) (out : list nearby_driver),
      return_query_yields ST_Distance db la lo radius out ->
      (List.length out <= 20)%nat
      /\ List.length out
         = Nat.min 20
             (List.length (matching_rows ST_Distance db (POINT lo la) radius)))
  /\ (forall (db : database) (la lo radius : Q),
         (List.length
            (returned_rows (find_nearby_drivers ST_Distance db la lo radius))
          <= 20)%nat)
  /\ List.length (matching_rows Sample.grid_metres Sample.crowd_db
                    (POINT 0 0) 5) = 25%nat
  /\ return_query_yields Sample.grid_metres Sample.crowd_db 0 0 5
       (return_query Sample.grid_metres Sample.crowd_db 0 0 5)
  /\ List.length (return_query Sample.grid_metres Sample.crowd_db 0 0 5)
     = 20%nat.
Proof.
  split; [|split; [|split; [|split]]].
  - intros db la lo radius out Hout.
    pose proof (return_query_length Hout) as E.
    split; [rewrite E; apply Nat.le_min_l | exact E].
  - intros db la lo radius. rewrite find_nearby_drivers_raises. simpl.
    apply Nat.le_0_l.
  - vm_compute. reflexivity.
  - apply return_query_is_a_result.
  - vm_compute. reflexivity.
Qed.




(* ================================================================== *)
(** ** Fares and night mode *)

Lemma is_night_mode_window cfg t :
  valid_time t -> is_night_mode cfg t = true <-> in_night_window cfg t.
Proof.
  unfold valid_time, is_night_mode, in_night_window. intros [H0 H24].
  destruct (Z.gtb (night_mode_start cfg) (night_mode_end cfg)).
  - rewrite orb_true_iff, Z.geb_le, Z.ltb_lt. lia.
  - rewrite andb_true_iff, Z.geb_le, Z.ltb_lt. lia.
Qed.

(** C6: for every distance, trip type and time of day the estimate is
    baseFare + perKmRate * distanceKm, and the night flag is set exactly
    when the time lies in the night window [start, end), which wraps
    midnight when start > end.  With the default configuration (500, 150,
    18:00-06:00) ten kilometres at 02:00 give 2000 and a night trip; at
    12:00 the flag is off. *)
Theorem C6_estimate_fare_and_night_flag
  (cfg : system_config) (distanceKm : Q) (tripType : trip_type) (atTime : time) :
  valid_time atTime ->
  fst (Estimate cfg distanceKm tripType atTime)
    == base_fare cfg + per_km_rate cfg * distanceKm
  /\ (snd (Estimate cfg distanceKm tripType atTime) = true
      <-> in_night_window cfg atTime)
  /\ Estimate default_config 10 short_drop (time_of 2 0) = (2000, true)
  /\ snd (Estimate default_config 10 short_drop (time_of 12 0)) = false.
Proof.
  intro Hv. split; [|split; [|split]].
  - unfold Estimate, calculateFare. simpl. reflexivity.
  - unfold Estimate. simpl. now apply is_night_mode_window.
  - vm_compute. reflexivity.
  - vm_compute. reflexivity.
Qed.

(** C6, witness: fifteen kilometres to the airport at 23:30. *)
Lemma C6_witness :
  fst (Estimate default_config 15 airport (time_of 23 30))
    == base_fare default_config + per_km_rate default_config * 15
  /\ (snd (Estimate default_config 15 airport (time_of 23 30)) = true
      <-> in_night_window default_config (time_of 23 30))
  /\ Estimate default_config 10 short_drop (time_of 2 0) = (2000, true)
  /\ snd (Estimate default_config 10 short_drop (time_of 12 0)) = false.
Proof.
  apply (@C6_estimate_fare_and_night_flag default_config 15 airport
           (time_of 23 30)).
  unfold valid_time. vm_compute. split; [discriminate | reflexivity].
Defined.

(* ================================================================== *)
(** ** Subscription eligibility *)

(** The stored function, for a rider who has a profile row: active exactly
    when the status is active or trial and the end date is after now. *)
Lemma is_subscription_active_rider db now user p :
  filter (fun r => col_is (rp_user_id r) user) (rider_profiles db) = [p] ->
  is_subscription_active db now user role_rider = Some true
  <-> (rp_subscription_status p = sub_active
       \/ rp_subscription_status p = sub_trial)
      /\ exists e, rp_subscription_end_date p = Some e /\ (now < e)%Z.
Proof.
  intro H. unfold is_subscription_active, select_into. rewrite H.
  destruct (rp_subscription_status p), (rp_subscription_end_date p) as [e|];
    simpl; try destruct (Z.ltb now e) eqn:E; simpl;
    try apply Z.ltb_lt in E; try apply Z.ltb_ge in E;
    split; intro G;
    try discriminate;
    try (split; [tauto | exists e; split; [reflexivity | assumption]]);
    try reflexivity;
    try (destruct G as [[G|G] _]; discriminate);
    try (destruct G as [_ [e' [G _]]]; discriminate);
    try (destruct G as [_ [e' [G L]]]; inversion G; subst; lia).
Qed.

(** The inline check of [requestTrip] lets a rider through exactly when the
    status is active and the end date is after now. *)
Lemma isActive_iff rider now :
  isActive rider now = true
  <-> rp_subscription_status rider = sub_active
      /\ (now < new_Date (rp_subscription_end_date rider))%Z.
Proof.
  unfold isActive.
  now rewrite andb_true_iff, subscription_status_eqb_eq, Z.ltb_lt.
Qed.

Lemma requestTrip_subscription_check
  (calculateDistance : Location -> Location -> Q) cfg
  db riderId pickup destination newId now rider :
  single (filter (fun p => N.eqb (rp_id p) riderId) (rider_profiles db))
    = Some rider ->
  isActive rider now = false ->
  requestTrip calculateDistance cfg riderId pickup destination newId now db
  = (db, Thrown (Error "Subscription required to request trips")).
Proof.
  intros Hr Ha. unfold requestTrip, bind, select_single, read.
  rewrite Hr, Ha. reflexivity.
Qed.

(** C4, the code at the failing input: a rider on trial whose subscription
    runs until 5000 asks for a trip at time 100.  The stored function
    [is_subscription_active] calls the subscription active; [requestTrip]
    throws "Subscription required to request trips" and stores nothing. *)
Theorem C4_trial_rider_rejected_by_requestTrip :
  is_subscription_active Sample.trial_db 100 101 role_rider = Some true
  /\ requestTrip Sample.flat_distance default_config 1
       Sample.georgetown_mall Sample.sheriff_street 33 100 Sample.trial_db
     = (Sample.trial_db,
        Thrown (Error "Subscription required to request trips")).
Proof. split; vm_compute; reflexivity. Qed.

(* ================================================================== *)
(** ** Accepting a request *)

Lemma accept_unavailable db c :
  filter (open_request (call_requestId c)) (trip_requests db) = [] ->
  accept c db = (db, Thrown (Error "Request no longer available")).
Proof.
  intro H. unfold accept, acceptRequest, bind, select_single, read.
  rewrite H. reflexivity.
Qed.

Lemma accept_goes_through db c request riderProfile :
  acceptable db c request riderProfile ->
  let trip := trip_of_request request (call_driverId c) (call_vehicleId c)
                (call_newTripId c) (call_now c) in
  exists db',
    accept c db = (db', Returned trip)
    /\ trips db' = trips db ++ [trip]
    /\ trip_requests db'
       = delete_where (fun r => N.eqb (tr_id r) (call_requestId c))
           (trip_requests db)
    /\ driver_profiles db'
       = update_where (fun d => N.eqb (dp_id d) (call_driverId c))
           (set_is_available false) (driver_profiles db)
    /\ rider_profiles db' = rider_profiles db.
Proof.
  intros [Hreq [Hins Hrider]] trip. subst trip.
  unfold accept, acceptRequest, bind, select_single, read.
  rewrite Hreq. unfold insert_trip. rewrite Hins.
  unfold delete_requests, update_drivers, write. simpl.
  rewrite Hrider. unfold insert_notification, write, ret.
  eexists. split; [reflexivity|].
  simpl. destruct (references u_id (users db) (rp_user_id riderProfile));
    repeat split; reflexivity.
Qed.

Lemma open_request_deleted requestId rows :
  filter (open_request requestId)
    (delete_where (fun r => N.eqb (tr_id r) requestId) rows) = [].
Proof.
  unfold open_request. apply filter_and_nil. apply delete_where_none.
Qed.

(** An uninterrupted run of the program points of a call is the call. *)
Lemma run_alone_is_accept c db :
  run_alone c db = (fst (accept c db), Finished (snd (accept c db))).
Proof.
  unfold run_alone, accept, acceptRequest, accept_step, await, bind,
    select_single, read, delete_requests, update_drivers, write.
  destruct (single (filter (open_request (call_requestId c)) (trip_requests db)))
    as [request|]; [|reflexivity].
  unfold insert_trip.
  destruct (trip_insertable db _); simpl.
  - destruct (single (filter _ (rider_profiles db))) as [rp|]; reflexivity.
  - destruct (single (filter _ (rider_profiles db))) as [rp|]; reflexivity.
Qed.

Lemma run_in_turn_unavailable db requestId calls :
  filter (open_request requestId) (trip_requests db) = [] ->
  Forall (fun c => call_requestId c = requestId) calls ->
  run_in_turn calls db
  = (db, map (fun _ => Thrown (Error "Request no longer available")) calls).
Proof.
  intros Hgone Hall. induction Hall as [|c calls Hc _ IH]; simpl; [reflexivity|].
  rewrite accept_unavailable by (rewrite Hc; exact Hgone).
  rewrite IH. reflexivity.
Qed.

(** The accept path of sections 2.5 and 2.6 has the same shape: the lookup
    is by id and status, and a second call made after the first has finished
    finds nothing. *)
Lemma acceptTripRequest_unavailable (isNightTime : timestamptz -> bool)
  db requestId driverId newTripId now :
  filter (open_request requestId) (trip_requests db) = [] ->
  acceptTripRequest isNightTime requestId driverId newTripId now db
  = (db, Thrown (Error "Request not available")).
Proof.
  intro H. unfold acceptTripRequest, bind, select_single, read.
  rewrite H. reflexivity.
Qed.

Lemma acceptTripRequest_on_expired_request :
  let night := fun _ : timestamptz => false in
  let '(db, r) := acceptTripRequest night 31 11 41 9000 Sample.dispatch_db in
  r = Returned (Some (trip_from_request night
                        (Sample.a_request 31 1 400 1000) 11 41 9000))
  /\ snd (acceptTripRequest night 31 12 42 9000 db)
     = Thrown (Error "Request not available").
Proof. vm_compute. split; reflexivity. Qed.

(** C1, as amended: when calls of [acceptRequest] on one request id are made
    one after the other, the first, finding the request open, returns the
    newly created trip and every later call throws "Request no longer
    available"; exactly one call succeeds, however many there are. *)
Theorem C1_calls_in_turn_exactly_one_trip
  (db : database) (c : accept_call) (later : list accept_call)
  (request : trip_request) (riderProfile : rider_profile) :
  acceptable db c request riderProfile ->
  Forall (fun c' => call_requestId c' = call_requestId c) later ->
  snd (run_in_turn (c :: later) db)
  = Returned (trip_of_request request (call_driverId c) (call_vehicleId c)
                (call_newTripId c) (call_now c))
    :: map (fun _ => Thrown (Error "Request no longer available")) later
  /\ List.length (filter succeeded (snd (run_in_turn (c :: later) db))) = 1%nat.
Proof.
  intros Hok Hsame.
  destruct (accept_goes_through Hok) as [db' [Hacc [_ [Hreqs _]]]].
  assert (E : snd (run_in_turn (c :: later) db)
              = Returned (trip_of_request request (call_driverId c)
                            (call_vehicleId c) (call_newTripId c) (call_now c))
                :: map (fun _ => Thrown (Error "Request no longer available"))
                     later).
  { simpl. rewrite Hacc.
    rewrite (@run_in_turn_unavailable db' (call_requestId c) later);
      [reflexivity | | assumption].
    rewrite Hreqs. apply open_request_deleted. }
  split; [exact E|].
  rewrite E. simpl. clear. induction later; simpl; auto.
Qed.

(** C1, witness: drivers 11 and 12 accept request 31 in turn. *)
Lemma C1_witness :
  snd (run_in_turn [Sample.call_11; Sample.call_12] Sample.dispatch_db)
  = [Returned (trip_of_request (Sample.a_request 31 1 400 1000) 11 21 41 500);
     Thrown (Error "Request no longer available")]
  /\ List.length
       (filter succeeded
          (snd (run_in_turn [Sample.call_11; Sample.call_12] Sample.dispatch_db)))
     = 1%nat.
Proof.
  apply (@C1_calls_in_turn_exactly_one_trip Sample.dispatch_db Sample.call_11
           [Sample.call_12] (Sample.a_request 31 1 400 1000)
           (Sample.a_rider 1 101 sub_active (Some 5000%Z))).
  - vm_compute. repeat split.
  - repeat constructor.
Defined.

(** C1, counterexample: two calls on request 31 that overlap.  Each reads
    the request before the other deletes it; both finish by returning a
    trip, and two trips are stored for the one request. *)
Lemma C1_overlapping_calls_both_return_a_trip :
  let '(db, threads) :=
    run_schedule Sample.racing_schedule
      (spawn [Sample.call_11; Sample.call_12]) Sample.dispatch_db in
  forallb finished threads = true
  /\ successes threads = 2%nat
  /\ map t_id (trips db) = [41%N; 42%N]
  /\ map (fun t => t_status t) (trips db) = [accepted; accepted].
Proof. vm_compute. repeat split. Qed.

Lemma accept_returned db c trip :
  snd (accept c db) = Returned trip ->
  exists request riderProfile, acceptable db c request riderProfile.
Proof.
  unfold accept, acceptRequest, bind, select_single, read, acceptable.
  destruct (single (filter (open_request (call_requestId c)) (trip_requests db)))
    as [request|]; [|discriminate].
  unfold insert_trip.
  destruct (trip_insertable db _) eqn:Eins; simpl;
    destruct (single (filter _ (rider_profiles db))) as [rp|] eqn:Erp;
    simpl; try discriminate.
  intros _. exists request, rp. repeat split; assumption.
Qed.

(** C3, as amended: [acceptRequest] looks the request up by id and
    status = 'requested' only; expires_at is not read.  A request whose
    expires_at is already past is therefore still claimed (the trip is
    created) as long as the sweep has not deleted it; once the sweep has run,
    the call throws "Request no longer available" and changes nothing. *)
Theorem C3_expired_request_claimable_until_swept
  (db : database) (c : accept_call)
  (request : trip_request) (riderProfile : rider_profile) :
  acceptable db c request riderProfile ->
  expires_before (call_now c) request = true ->
  (snd (accept c db)
   = Returned (trip_of_request request (call_driverId c) (call_vehicleId c)
                 (call_newTripId c) (call_now c))
   /\ trips (fst (accept c db))
      = trips db ++ [trip_of_request request (call_driverId c)
                       (call_vehicleId c) (call_newTripId c) (call_now c)])
  /\ (let swept := fst (cleanupExpiredRequests (call_now c) db) in
      accept c swept = (swept, Thrown (Error "Request no longer available"))).
Proof.
  intros Hok Hexp. split.
  - destruct (accept_goes_through Hok) as [db' [Hacc [Htrips _]]].
    rewrite Hacc. simpl. split; [reflexivity | exact Htrips].
  - simpl. apply accept_unavailable.
    unfold cleanupExpiredRequests, delete_requests, write. simpl.
    unfold delete_where. rewrite filter_filter_comm.
    destruct Hok as [Hreq _]. apply single_some in Hreq.
    rewrite Hreq. simpl. rewrite Hexp.
    assert (Hst : trip_status_eqb (tr_status request) requested = true).
    { assert (Hin : In request
                      (filter (open_request (call_requestId c))
                         (trip_requests db))) by (rewrite Hreq; now left).
      apply filter_In in Hin. destruct Hin as [_ Hin].
      unfold open_request in Hin. apply andb_true_iff in Hin. tauto. }
    rewrite Hst. reflexivity.
Qed.

(** C3, witness: driver 11 accepts request 31 at time 9000; the request
    expired at 1000. *)
Lemma C3_witness :
  (snd (accept Sample.late_call Sample.dispatch_db)
   = Returned (trip_of_request (Sample.a_request 31 1 400 1000) 11 21 41 9000)
   /\ trips (fst (accept Sample.late_call Sample.dispatch_db))
      = trips Sample.dispatch_db
        ++ [trip_of_request (Sample.a_request 31 1 400 1000) 11 21 41 9000])
  /\ (let swept := fst (cleanupExpiredRequests 9000 Sample.dispatch_db) in
      accept Sample.late_call swept
      = (swept, Thrown (Error "Request no longer available"))).
Proof.
  apply (@C3_expired_request_claimable_until_swept Sample.dispatch_db
           Sample.late_call (Sample.a_request 31 1 400 1000)
           (Sample.a_rider 1 101 sub_active (Some 5000%Z))).
  - vm_compute. repeat split.
  - vm_compute. reflexivity.
Defined.

(** C3, counterexample: request 31 expired at time 1000 and has not been
    swept; the call made at time 9000 returns a trip, which is stored. *)
Lemma C3_expired_request_is_claimed :
  tr_expires_at (Sample.a_request 31 1 400 1000) = Some 1000%Z
  /\ (1000 < call_now Sample.late_call)%Z
  /\ succeeded (snd (accept Sample.late_call Sample.dispatch_db)) = true
  /\ map t_id (trips (fst (accept Sample.late_call Sample.dispatch_db)))
     = [41%N].
Proof. vm_compute. repeat split. Qed.

(* ================================================================== *)
(** ** Trip status *)

Lemma trip_by_id_updated (f : trip -> trip) tripId rows t :
  (forall r, t_id (f r) = t_id r) ->
  single (filter (fun r => N.eqb (t_id r) tripId) rows) = Some t ->
  single (filter (fun r => N.eqb (t_id r) tripId)
            (update_where (fun r => N.eqb (t_id r) tripId) f rows))
  = Some (f t).
Proof.
  intros Hid Hs.
  rewrite filter_update_where by (intro r; now rewrite Hid).
  now apply single_map.
Qed.

Lemma startTrip_status db tripId now t :
  single (filter (fun r => N.eqb (t_id r) tripId) (trips db)) = Some t ->
  startTrip tripId now db
  = (with_trips (update_where (fun r => N.eqb (t_id r) tripId)
                   (set_picked_up now)) db, Returned tt)
  /\ status_of (fst (startTrip tripId now db)) tripId = Some picked_up.
Proof.
  intro Hs. split; [reflexivity|].
  unfold status_of, startTrip, update_trips, write. simpl.
  rewrite (@trip_by_id_updated (set_picked_up now) tripId (trips db) t);
    [reflexivity | reflexivity | assumption].
Qed.

Lemma completeTrip_runs db tripId d f now t distance fare :
  single (filter (fun r => N.eqb (t_id r) tripId) (trips db)) = Some t ->
  to_numeric 6 2 d = Some distance ->
  to_numeric 10 2 f = Some fare ->
  snd (completeTrip tripId d f now db) = Returned tt
  /\ trips (fst (completeTrip tripId d f now db))
     = update_where (fun r => N.eqb (t_id r) tripId)
         (set_completed now distance fare) (trips db)
  /\ driver_profiles (fst (completeTrip tripId d f now db))
     = update_where (fun x => col_is (t_driver_id t) (dp_id x))
         (set_is_available true)
         (update_where (fun x => col_is (t_driver_id t) (dp_id x))
            add_driver_trip (driver_profiles db)).
Proof.
  intros Hs Hd Hf.
  unfold completeTrip, completed_values, bind, update_trips_single.
  rewrite Hd, Hf.
  rewrite (single_map (set_completed now distance fare) _ Hs).
  unfold increment_rider_trips, increment_driver_trips, update_drivers, write.
  simpl. repeat split.
Qed.

(** A distance or a fare that does not fit its column: the UPDATE is
    rejected, [trip] is [null] and the read of [trip.rider_id] throws. *)
Lemma completeTrip_overflow db tripId d f now :
  completed_values now d f = None ->
  completeTrip tripId d f now db = (db, Thrown TypeError).
Proof.
  intro H. unfold completeTrip, bind, update_trips_single. now rewrite H.
Qed.

(** The refund function stops at its first statement: 'refunded' is no
    label of [trip_status]. *)
Lemma processRefund_fails db tripId amount :
  processRefund tripId amount db = (db, Thrown (PostgrestError "22P02")).
Proof. reflexivity. Qed.

(** C2, as amended: no transition looks at the status the trip is in.  For
    a stored trip in any status, [startTrip] goes through and leaves it
    picked_up, and [completeTrip], given a distance and a fare that fit
    their columns, goes through and leaves it completed.  No operation
    answers with an invalid-transition error. *)
Theorem C2_transitions_go_through_from_any_status
  (db : database) (tripId : uuid) (t : trip) (now : timestamptz)
  (actualDistance actualFare distance fare : Q) :
  single (filter (fun r => N.eqb (t_id r) tripId) (trips db)) = Some t ->
  to_numeric 6 2 actualDistance = Some distance ->
  to_numeric 10 2 actualFare = Some fare ->
  (snd (startTrip tripId now db) = Returned tt
   /\ status_of (fst (startTrip tripId now db)) tripId = Some picked_up)
  /\ (snd (completeTrip tripId actualDistance actualFare now db) = Returned tt
      /\ status_of (fst (completeTrip tripId actualDistance actualFare now db))
           tripId = Some completed).
Proof.
  intros Hs Hd Hf. split.
  - destruct (startTrip_status db tripId now Hs) as [E Hst].
    rewrite E at 1. split; [reflexivity | exact Hst].
  - destruct (@completeTrip_runs db tripId actualDistance actualFare now t
                distance fare Hs Hd Hf) as [Hr [Ht _]].
    split; [exact Hr|]. unfold status_of. rewrite Ht.
    rewrite (@trip_by_id_updated (set_completed now distance fare)
               tripId (trips db) t); [reflexivity | reflexivity | assumption].
Qed.

(** C2, witness: the transitions applied to the completed trip 41. *)
Lemma C2_witness :
  (snd (startTrip 41 800 History.completed_db) = Returned tt
   /\ status_of (fst (startTrip 41 800 History.completed_db)) 41
      = Some picked_up)
  /\ (snd (completeTrip 41 3 900 800 History.completed_db) = Returned tt
      /\ status_of (fst (completeTrip 41 3 900 800 History.completed_db)) 41
         = Some completed).
Proof.
  apply (@C2_transitions_go_through_from_any_status History.completed_db 41
           History.completed_trip 800 3 900 3 900).
  - vm_compute. reflexivity.
  - vm_compute. reflexivity.
  - vm_compute. reflexivity.
Defined.

(** C2, counterexample: trip 41 is completed; [startTrip] on it goes through
    and the trip is picked_up again, so completed -> picked_up is an
    accepted step. *)
Lemma C2_started_again_after_completion :
  status_of History.completed_db 41 = Some completed
  /\ snd (startTrip 41 800 History.completed_db) = Returned tt
  /\ status_of (fst (startTrip 41 800 History.completed_db)) 41
     = Some picked_up.
Proof. vm_compute. repeat split. Qed.

(* ================================================================== *)
(** ** Driver position and availability *)

Lemma filter_update_where_forall {A : Type} (P : A -> Prop)
  (p q : A -> bool) (f : A -> A) rows :
  (forall r, p (f r) = p r) ->
  (forall r, p r = true -> q r = true) ->
  (forall r, P (f r)) ->
  Forall P (filter p (update_where q f rows)).
Proof.
  intros Hp Hpq HP. apply Forall_forall. intros r' Hin.
  apply filter_In in Hin. destruct Hin as [Hin Hpr].
  apply update_where_In in Hin. destruct Hin as [r [_ ->]].
  destruct (q r) eqn:Eq; [apply HP|].
  rewrite Hpq in Eq by assumption. discriminate.
Qed.

(** C8, as amended: [recordDriverLocation] takes no sample timestamp and
    compares nothing: every call overwrites the stored position of the
    driver with its own point and location_updated_at with the clock
    reading of the call.  The call made last wins, whatever its time. *)
Theorem C8_every_position_update_is_applied
  (db : database) (tripId driverId : uuid) (latitude longitude speed : Q)
  (recorded updated : timestamptz) :
  let db' := fst (recordDriverLocation tripId driverId latitude longitude
                    speed recorded updated db) in
  snd (recordDriverLocation tripId driverId latitude longitude speed
         recorded updated db) = Returned tt
  /\ driver_rows db' driverId
     = map (set_current_location (POINT longitude latitude) updated)
         (driver_rows db driverId)
  /\ Forall (fun d => dp_current_location d = Some (POINT longitude latitude)
                      /\ dp_location_updated_at d = Some updated)
       (driver_rows db' driverId).
Proof.
  assert (E : driver_profiles
                (fst (recordDriverLocation tripId driverId latitude longitude
                        speed recorded updated db))
              = update_where (fun d => N.eqb (dp_id d) driverId)
                  (set_current_location (POINT longitude latitude) updated)
                  (driver_profiles db)).
  { unfold recordDriverLocation, bind, insert_location_sample, update_drivers,
      write. simpl.
    destruct (location_values _); [|reflexivity].
    destruct (existsb _ (trips db) && existsb _ (driver_profiles db));
      reflexivity. }
  cbv zeta. split; [|split].
  - unfold recordDriverLocation, bind, insert_location_sample, update_drivers,
      write. reflexivity.
  - unfold driver_rows. rewrite E.
    apply filter_update_where. reflexivity.
  - unfold driver_rows. rewrite E.
    apply filter_update_where_forall; auto.
Qed.

(** C8, counterexample: driver 11 reports a position at time 200 and then
    another one at the earlier time 100.  The second call is applied: the
    stored position is the one sent with time 100. *)
Lemma C8_older_sample_overwrites_newer :
  let db1 := fst (recordDriverLocation 41 11 (1 # 10) (2 # 10) 30 200 200
                    History.accepted_db) in
  let db2 := fst (recordDriverLocation 41 11 (3 # 10) (4 # 10) 30 100 100
                    db1) in
  map (fun d => (dp_current_location d, dp_location_updated_at d))
    (driver_rows db1 11)
  = [(Some (POINT (2 # 10) (1 # 10)), Some 200%Z)]
  /\ map (fun d => (dp_current_location d, dp_location_updated_at d))
       (driver_rows db2 11)
     = [(Some (POINT (4 # 10) (3 # 10)), Some 100%Z)].
Proof. vm_compute. split; reflexivity. Qed.

Lemma references_driver_rows db driverId :
  references dp_id (driver_profiles db) (Some driverId) = true ->
  driver_rows db driverId <> [].
Proof.
  simpl. unfold driver_rows. intro H. apply existsb_exists in H.
  destruct H as [d [Hin Hd]]. intro E.
  assert (Hf : In d (filter (fun d => N.eqb (dp_id d) driverId)
                       (driver_profiles db)))
    by (apply filter_In; split; assumption).
  rewrite E in Hf. exact Hf.
Qed.

(** C9: is_available, the column the schema describes as "Not on active
    trip", does not stay false while a driver has a trip under way.
    Starting from a state without trips, driver 11 accepts request 31,
    accepts request 32 while on the first trip, and completes the first
    trip.  Trip 43 is then in state accepted with driver 11, whose
    is_available is true. *)
Lemma C9_driver_available_with_trip_under_way :
  availability_invariant Sample.dispatch_db = true
  /\ availability_invariant History.two_trips_db = false
  /\ status_of History.two_trips_db 43 = Some accepted
  /\ map t_driver_id
       (filter (fun t => N.eqb (t_id t) 43) (trips History.two_trips_db))
     = [Some 11%N]
  /\ map dp_is_available (driver_rows History.two_trips_db 11) = [true].
Proof. vm_compute. repeat split. Qed.

(* ================================================================== *)
(** ** The subscription expiry job *)

Lemma update_where_cons {A : Type} (p : A -> bool) (f : A -> A) r rows :
  update_where p f (r :: rows)
  = (if p r then f r else r) :: update_where p f rows.
Proof. reflexivity. Qed.

Lemma update_where_ext_in {A : Type} (p q : A -> bool) (f : A -> A) rows :
  (forall r, In r rows -> p r = q r) ->
  update_where p f rows = update_where q f rows.
Proof.
  intro H. unfold update_where. apply map_ext_in.
  intros r Hr. now rewrite (H r Hr).
Qed.

Lemma update_where_none {A : Type} (p : A -> bool) (f : A -> A) rows :
  filter p rows = [] -> update_where p f rows = rows.
Proof.
  induction rows as [|r rows IH]; simpl; [reflexivity|].
  destruct (p r); [discriminate|]. intro H. now rewrite IH.
Qed.

(** Updating by id once for every selected id is one update of the rows
    whose id was selected. *)
Lemma fold_update_by_id {A X : Type} (key : A -> uuid) (id_of : X -> uuid)
  (f : A -> A) (xs : list X) (rows : list A) :
  (forall r, key (f r) = key r) ->
  (forall r, f (f r) = f r) ->
  fold_left (fun rows x => update_where (fun r => N.eqb (key r) (id_of x)) f rows)
    xs rows
  = update_where (fun r => existsb (fun x => N.eqb (key r) (id_of x)) xs) f rows.
Proof.
  intros Hkey Hidem. revert rows.
  induction xs as [|x xs IH]; intro rows; simpl.
  - unfold update_where. now rewrite map_id.
  - rewrite IH. unfold update_where. rewrite map_map.
    apply map_ext. intro r.
    destruct (N.eqb (key r) (id_of x)) eqn:E; simpl.
    + rewrite Hkey.
      destruct (existsb _ xs); [apply Hidem | reflexivity].
    + reflexivity.
Qed.

Lemma key_injective_on {A : Type} (key : A -> uuid) (rows : list A) x y :
  NoDup (map key rows) -> In x rows -> In y rows -> key x = key y -> x = y.
Proof.
  induction rows as [|r rows IH]; simpl; [tauto|].
  intros Hnd Hx Hy E. inversion Hnd as [|k ks Hnotin Hnd']; subst.
  destruct Hx as [-> | Hx], Hy as [-> | Hy]; try reflexivity.
  - exfalso. apply Hnotin. rewrite E. now apply in_map.
  - exfalso. apply Hnotin. rewrite <- E. now apply in_map.
  - now apply IH.
Qed.

(** With distinct ids, the selected ids pick out the selected rows. *)
Lemma selected_by_id {A : Type} (key : A -> uuid) (sel : A -> bool)
  (rows : list A) r :
  NoDup (map key rows) -> In r rows ->
  existsb (fun x => N.eqb (key r) x) (map key (filter sel rows)) = sel r.
Proof.
  intros Hnd Hr. destruct (sel r) eqn:Es.
  - apply existsb_exists. exists (key r). split; [|apply N.eqb_refl].
    apply in_map. apply filter_In. now split.
  - destruct (existsb _ _) eqn:Ex; [|reflexivity].
    apply existsb_exists in Ex. destruct Ex as [k [Hk Ek]].
    apply in_map_iff in Hk. destruct Hk as [x [<- Hx]].
    apply filter_In in Hx. destruct Hx as [Hx Hsx].
    apply N.eqb_eq in Ek.
    rewrite (@key_injective_on _ key rows r x Hnd Hr Hx Ek) in Es. congruence.
Qed.

Lemma expire_one_rider_step x db :
  exists notes,
    expire_one_rider x db
    = ({| users := users db;
          rider_profiles :=
            update_where (fun r => N.eqb (rp_id r) (fst x)) expire_rider
              (rider_profiles db);
          driver_profiles := driver_profiles db; vehicles := vehicles db;
          trip_requests := trip_requests db; trips := trips db;
          location_history := location_history db;
          payment_transactions := payment_transactions db;
          notifications := notes |}, Returned tt).
Proof.
  unfold expire_one_rider, bind, insert_notification, write.
  cbn.
  destruct (references u_id (users db) (snd x)); eexists; reflexivity.
Qed.

Lemma expire_one_driver_step x db :
  exists notes,
    expire_one_driver x db
    = ({| users := users db; rider_profiles := rider_profiles db;
          driver_profiles :=
            update_where (fun d => N.eqb (dp_id d) (fst x)) expire_driver
              (driver_profiles db);
          vehicles := vehicles db;
          trip_requests := trip_requests db; trips := trips db;
          location_history := location_history db;
          payment_transactions := payment_transactions db;
          notifications := notes |}, Returned tt).
Proof.
  unfold expire_one_driver, bind, insert_notification, write.
  cbn.
  destruct (references u_id (users db) (snd x)); eexists; reflexivity.
Qed.

Lemma rider_loop xs : forall db,
  exists notes,
    for_each xs expire_one_rider db
    = ({| users := users db;
          rider_profiles :=
            fold_left (fun rows x =>
                         update_where (fun r => N.eqb (rp_id r) (fst x))
                           expire_rider rows)
              xs (rider_profiles db);
          driver_profiles := driver_profiles db; vehicles := vehicles db;
          trip_requests := trip_requests db; trips := trips db;
          location_history := location_history db;
          payment_transactions := payment_transactions db;
          notifications := notes |}, Returned tt).
Proof.
  induction xs as [|x xs IH]; intro db.
  - exists (notifications db). destruct db; reflexivity.
  - destruct (expire_one_rider_step x db) as [n1 E1].
    simpl. unfold bind. rewrite E1.
    match goal with
    | |- context [for_each xs expire_one_rider ?d] =>
        destruct (IH d) as [n2 E2]; rewrite E2
    end.
    exists n2. reflexivity.
Qed.

Lemma driver_loop xs : forall db,
  exists notes,
    for_each xs expire_one_driver db
    = ({| users := users db; rider_profiles := rider_profiles db;
          driver_profiles :=
            fold_left (fun rows x =>
                         update_where (fun d => N.eqb (dp_id d) (fst x))
                           expire_driver rows)
              xs (driver_profiles db);
          vehicles := vehicles db;
          trip_requests := trip_requests db; trips := trips db;
          location_history := location_history db;
          payment_transactions := payment_transactions db;
          notifications := notes |}, Returned tt).
Proof.
  induction xs as [|x xs IH]; intro db.
  - exists (notifications db). destruct db; reflexivity.
  - destruct (expire_one_driver_step x db) as [n1 E1].
    simpl. unfold bind. rewrite E1.
    match goal with
    | |- context [for_each xs expire_one_driver ?d] =>
        destruct (IH d) as [n2 E2]; rewrite E2
    end.
    exists n2. reflexivity.
Qed.

(** The ids the job selects. *)
Lemma expired_ids_riders now rows r :
  existsb (fun x : uuid * option uuid => N.eqb (rp_id r) (fst x))
    (map (fun r => (rp_id r, rp_user_id r)) (filter (lapsed_rider now) rows))
  = existsb (fun k => N.eqb (rp_id r) k)
      (map rp_id (filter (lapsed_rider now) rows)).
Proof.
  induction (filter (lapsed_rider now) rows) as [|x xs IH]; simpl;
    [reflexivity | now rewrite IH].
Qed.

Lemma expired_ids_drivers now rows d :
  existsb (fun x : uuid * option uuid => N.eqb (dp_id d) (fst x))
    (map (fun d => (dp_id d, dp_user_id d))
       (filter (lapsed_driver_row now) rows))
  = existsb (fun k => N.eqb (dp_id d) k)
      (map dp_id (filter (lapsed_driver_row now) rows)).
Proof.
  induction (filter (lapsed_driver_row now) rows) as [|x xs IH]; simpl;
    [reflexivity | now rewrite IH].
Qed.

(** What the job leaves in the two profile tables. *)
Lemma expireSubscriptions_tables now db :
  exists notes,
    expireSubscriptions now db
    = ({| users := users db;
          rider_profiles :=
            update_where
              (fun r => existsb (fun k => N.eqb (rp_id r) k)
                          (map rp_id (filter (lapsed_rider now)
                                        (rider_profiles db))))
              expire_rider (rider_profiles db);
          driver_profiles :=
            update_where
              (fun d => existsb (fun k => N.eqb (dp_id d) k)
                          (map dp_id (filter (lapsed_driver_row now)
                                        (driver_profiles db))))
              expire_driver (driver_profiles db);
          vehicles := vehicles db;
          trip_requests := trip_requests db; trips := trips db;
          location_history := location_history db;
          payment_transactions := payment_transactions db;
          notifications := notes |}, Returned tt).
Proof.
  unfold expireSubscriptions, bind, read.
  match goal with
  | |- context [for_each ?xs expire_one_rider db] =>
      destruct (rider_loop xs db) as [n1 E1]; rewrite E1
  end.
  simpl.
  match goal with
  | |- context [for_each ?xs expire_one_driver ?d] =>
      destruct (driver_loop xs d) as [n2 E2]; rewrite E2
  end.
  simpl. exists n2.
  rewrite (fold_update_by_id rp_id (fun x : uuid * option uuid => fst x)
             expire_rider) by reflexivity.
  rewrite (fold_update_by_id dp_id (fun x : uuid * option uuid => fst x)
             expire_driver) by reflexivity.
  f_equal. f_equal.
  - apply update_where_ext_in. intros r _. apply expired_ids_riders.
  - apply update_where_ext_in. intros d _. apply expired_ids_drivers.
Qed.

Lemma filter_none_of_Forall {A : Type} (p : A -> bool) rows :
  Forall (fun r => p r = false) rows -> filter p rows = [].
Proof.
  induction 1 as [|r rows Hr _ IH]; simpl; [reflexivity|].
  now rewrite Hr.
Qed.

Lemma lapsed_rows_gone {A : Type} (key : A -> uuid) (sel : A -> bool)
  (f : A -> A) rows :
  (forall r, sel (f r) = false) ->
  Forall (fun r => sel r = false)
    (update_where
       (fun r => existsb (fun k => N.eqb (key r) k) (map key (filter sel rows)))
       f rows).
Proof.
  intro Hf. apply Forall_forall. intros r' Hin.
  apply update_where_In in Hin. destruct Hin as [r [Hr ->]].
  destruct (existsb _ _) eqn:Ex; [apply Hf|].
  destruct (sel r) eqn:Es; [|reflexivity].
  assert (Hex : existsb (fun k => N.eqb (key r) k) (map key (filter sel rows))
                = true).
  { apply existsb_exists. exists (key r). split; [|apply N.eqb_refl].
    apply in_map. apply filter_In. now split. }
  congruence.
Qed.

(** X1: after [expireSubscriptions] no rider and no driver is left with
    status active and an end date before the clock reading of the job. *)
Theorem expireSubscriptions_leaves_no_lapsed_subscription
  (now : timestamptz) (db : database) :
  snd (expireSubscriptions now db) = Returned tt
  /\ Forall (fun r => lapsed_rider now r = false)
       (rider_profiles (fst (expireSubscriptions now db)))
  /\ Forall (fun d => lapsed_driver_row now d = false)
       (driver_profiles (fst (expireSubscriptions now db))).
Proof.
  destruct (expireSubscriptions_tables now db) as [notes E].
  rewrite E. simpl. split; [reflexivity|]. split.
  - apply lapsed_rows_gone. reflexivity.
  - apply lapsed_rows_gone. reflexivity.
Qed.

(** X2: when ids are distinct, the job rewrites exactly the rows that are
    active with an end date in the past: such a rider becomes expired, such
    a driver becomes expired, offline and unavailable; every other row (in
    particular every trial row and every row without an end date) and the
    trips and requests stay as they are. *)
Theorem expireSubscriptions_rewrites_exactly_the_lapsed_rows
  (now : timestamptz) (db : database) :
  NoDup (map rp_id (rider_profiles db)) ->
  NoDup (map dp_id (driver_profiles db)) ->
  rider_profiles (fst (expireSubscriptions now db))
  = map (fun r => if lapsed_rider now r then expire_rider r else r)
      (rider_profiles db)
  /\ driver_profiles (fst (expireSubscriptions now db))
     = map (fun d => if lapsed_driver_row now d then expire_driver d else d)
         (driver_profiles db)
  /\ trips (fst (expireSubscriptions now db)) = trips db
  /\ trip_requests (fst (expireSubscriptions now db)) = trip_requests db.
Proof.
  intros Hr Hd.
  destruct (expireSubscriptions_tables now db) as [notes E].
  rewrite E. simpl. repeat split.
  - unfold update_where. apply map_ext_in. intros r Hin.
    now rewrite (@selected_by_id _ rp_id (lapsed_rider now)
                   (rider_profiles db) r Hr Hin).
  - unfold update_where. apply map_ext_in. intros d Hin.
    now rewrite (@selected_by_id _ dp_id (lapsed_driver_row now)
                   (driver_profiles db) d Hd Hin).
Qed.

(** X2, witness: the job at time 100 on the sample with one lapsed rider
    and one lapsed driver. *)
Lemma expireSubscriptions_rewrites_exactly_the_lapsed_rows_witness :
  rider_profiles (fst (expireSubscriptions 100 Sample2.lapsing_db))
  = map (fun r => if lapsed_rider 100 r then expire_rider r else r)
      (rider_profiles Sample2.lapsing_db)
  /\ driver_profiles (fst (expireSubscriptions 100 Sample2.lapsing_db))
     = map (fun d => if lapsed_driver_row 100 d then expire_driver d else d)
         (driver_profiles Sample2.lapsing_db)
  /\ trips (fst (expireSubscriptions 100 Sample2.lapsing_db))
     = trips Sample2.lapsing_db
  /\ trip_requests (fst (expireSubscriptions 100 Sample2.lapsing_db))
     = trip_requests Sample2.lapsing_db.
Proof.
  apply (@expireSubscriptions_rewrites_exactly_the_lapsed_rows 100
           Sample2.lapsing_db).
  - simpl. repeat constructor; simpl; intuition discriminate.
  - simpl. repeat constructor; simpl; intuition discriminate.
Defined.

(** X3: running the job a second time with the same clock reading changes
    nothing, not even the notifications. *)
Theorem expireSubscriptions_twice_is_once (now : timestamptz) (db : database) :
  expireSubscriptions now (fst (expireSubscriptions now db))
  = (fst (expireSubscriptions now db), Returned tt).
Proof.
  destruct (expireSubscriptions_tables now db) as [notes E].
  assert (Hr : Forall (fun r => lapsed_rider now r = false)
                 (rider_profiles (fst (expireSubscriptions now db))))
    by (rewrite E; apply lapsed_rows_gone; reflexivity).
  assert (Hd : Forall (fun d => lapsed_driver_row now d = false)
                 (driver_profiles (fst (expireSubscriptions now db))))
    by (rewrite E; apply lapsed_rows_gone; reflexivity).
  clear E.
  apply filter_none_of_Forall in Hr. apply filter_none_of_Forall in Hd.
  unfold expireSubscriptions at 1. unfold bind, read.
  rewrite Hr. simpl. rewrite Hd. reflexivity.
Qed.

(** X4: once the job has run, the query of [find_nearby_drivers] yields no
    driver whose subscription says active and ended before the job's clock
    reading: every driver it yields is on trial, or active with no end date
    or an end date not before that reading. *)
Theorem nearby_drivers_after_expiry_job
  (ST_Distance : geography -> geography -> Q)
  (now : timestamptz) (db : database) (la lo radius : Q)
  (out : list nearby_driver) (row : nearby_driver) :
  return_query_yields ST_Distance (fst (expireSubscriptions now db))
    la lo radius out ->
  In row out ->
  exists dp,
    In dp (driver_profiles (fst (expireSubscriptions now db)))
    /\ dp_id dp = driver_id row
    /\ (dp_subscription_status dp = sub_trial
        \/ (dp_subscription_status dp = sub_active
            /\ forall e, dp_subscription_end_date dp = Some e -> (now <= e)%Z)).
Proof.
  intros Hout H.
  destruct (return_query_row _ Hout H) as [[[dp u] v] [Hin [Hw ->]]].
  apply from_clause_driver in Hin.
  exists dp. split; [assumption|]. split; [reflexivity|].
  unfold where_clause in Hw. repeat rewrite andb_true_iff in Hw.
  destruct Hw as [[[_ _] Hsub] _].
  apply orb_true_iff in Hsub. rewrite !subscription_status_eqb_eq in Hsub.
  destruct Hsub as [Ha | Ht]; [right | now left].
  split; [assumption|]. intros e He.
  destruct (expireSubscriptions_tables now db) as [notes E].
  rewrite E in Hin. simpl in Hin.
  assert (Hl : lapsed_driver_row now dp = false).
  { pose proof (@lapsed_rows_gone _ dp_id (lapsed_driver_row now) expire_driver
                  (driver_profiles db) (fun _ => eq_refl)) as Hall.
    rewrite Forall_forall in Hall. now apply Hall. }
  unfold lapsed_driver_row, lapsed in Hl. rewrite Ha, He in Hl. simpl in Hl.
  apply Z.ltb_ge in Hl. exact Hl.
Qed.

(** X4, witness: after the job at time 100 driver 12, paid up to 5000, is
    the one driver the query yields. *)
Lemma nearby_drivers_after_expiry_job_witness :
  exists dp,
    In dp (driver_profiles (fst (expireSubscriptions 100 Sample2.lapsing_db)))
    /\ dp_id dp = 12%N
    /\ (dp_subscription_status dp = sub_trial
        \/ (dp_subscription_status dp = sub_active
            /\ forall e, dp_subscription_end_date dp = Some e -> (100 <= e)%Z)).
Proof.
  apply (@nearby_drivers_after_expiry_job Sample.grid_metres 100
           Sample2.lapsing_db 0 0 5
           (return_query Sample.grid_metres
              (fst (expireSubscriptions 100 Sample2.lapsing_db)) 0 0 5)
           {| driver_id := 12; driver_name := "user";
              distance_km := 100000 * (Qabs (0 - 0) + Qabs (0 - 0)) / 1000;
              rating := 4; vehicle_info := None |}).
  - apply return_query_is_a_result.
  - vm_compute. left. reflexivity.
Defined.

(* ================================================================== *)
(** ** More on nearby drivers *)

(** X5: whatever the tables hold and whatever is asked for, a call of
    [find_nearby_drivers] as it is declared raises 42804 and hands no row
    over, although its query has rows to yield: with the three sample
    drivers in range the query yields three rows and the call none. *)
Theorem find_nearby_drivers_raises_on_every_call
  (ST_Distance : geography -> geography -> Q) :
  (forall (db : database) (la lo radius : Q),
      find_nearby_drivers ST_Distance db la lo radius = Raised "42804"
      /\ returned_rows (find_nearby_drivers ST_Distance db la lo radius) = [])
  /\ same_types returns_table select_list_types = false
  /\ List.length (return_query Sample.grid_metres Sample.three_drivers_db 0 0 5)
     = 3%nat
  /\ returned_rows
       (find_nearby_drivers Sample.grid_metres Sample.three_drivers_db 0 0 5)
     = [].
Proof.
  split; [|split; [|split]].
  - intros db la lo radius. rewrite find_nearby_drivers_raises.
    split; reflexivity.
  - reflexivity.
  - vm_compute. reflexivity.
  - reflexivity.
Qed.

(** X7: when at most 20 joined rows pass the WHERE clause, none is dropped:
    every result of the query is a rearrangement of all of them. *)
Theorem nearby_drivers_all_returned_up_to_twenty
  (ST_Distance : geography -> geography -> Q)
  (db : database) (la lo radius : Q) (out : list nearby_driver) :
  (List.length (matching_rows ST_Distance db (POINT lo la) radius) <= 20)%nat ->
  return_query_yields ST_Distance db la lo radius out ->
  Permutation
    (map (select_list ST_Distance (POINT lo la))
       (matching_rows ST_Distance db (POINT lo la) radius))
    out.
Proof.
  intros Hlen [sorted [Hp [_ ->]]]. unfold limit.
  rewrite firstn_all2; [exact Hp|].
  now rewrite <- (Permutation_length Hp), length_map.
Qed.

(** X7, witness: the three sample drivers. *)
Lemma nearby_drivers_all_returned_up_to_twenty_witness :
  Permutation
    (map (select_list Sample.grid_metres (POINT 0 0))
       (matching_rows Sample.grid_metres Sample.three_drivers_db (POINT 0 0) 5))
    (return_query Sample.grid_metres Sample.three_drivers_db 0 0 5).
Proof.
  apply (@nearby_drivers_all_returned_up_to_twenty Sample.grid_metres
           Sample.three_drivers_db 0 0 5).
  - vm_compute. repeat constructor.
  - apply return_query_is_a_result.
Defined.

(* ================================================================== *)
(** ** From request to trip *)

Lemma no_row_with_id {A : Type} (key : A -> uuid) (rows : list A) x :
  existsb (fun r => N.eqb (key r) x) rows = false ->
  filter (fun r => N.eqb (key r) x) rows = [].
Proof.
  induction rows as [|r rows IH]; simpl; [reflexivity|].
  destruct (N.eqb (key r) x); simpl; [discriminate | exact IH].
Qed.


Lemma filter_map_if {A : Type} (p q : A -> bool) (f : A -> A) rows :
  (forall r, p (f r) = p r) ->
  filter p (update_where q f rows)
  = map (fun r => if q r then f r else r) (filter p rows).
Proof.
  intro Hp. unfold update_where.
  induction rows as [|r rows IH]; simpl; [reflexivity|].
  destruct (q r) eqn:Eq.
  - rewrite Hp. destruct (p r); simpl; rewrite ?Eq, IH; reflexivity.
  - destruct (p r); simpl; rewrite ?Eq, IH; reflexivity.
Qed.


(** X8: when the trip insert is rejected (the driver or vehicle id names no
    row, or the trip id is taken), [acceptRequest] still deletes the request
    and marks the driver unavailable, and then throws a TypeError: no trip
    is stored, the request is gone, and a retry finds nothing to accept. *)
Theorem acceptRequest_rejected_insert_loses_the_request
  (db : database) (c : accept_call) (request : trip_request) :
  single (filter (open_request (call_requestId c)) (trip_requests db))
    = Some request ->
  trip_insertable db
    (trip_of_request request (call_driverId c) (call_vehicleId c)
       (call_newTripId c) (call_now c)) = false ->
  snd (accept c db) = Thrown TypeError
  /\ trips (fst (accept c db)) = trips db
  /\ filter (fun r => N.eqb (tr_id r) (call_requestId c))
       (trip_requests (fst (accept c db))) = []
  /\ Forall (fun d => dp_is_available d = false)
       (driver_rows (fst (accept c db)) (call_driverId c))
  /\ accept c (fst (accept c db))
     = (fst (accept c db), Thrown (Error "Request no longer available")).
Proof.
  intros Hreq Hins.
  assert (E : accept c db
              = (with_driver_profiles
                   (update_where (fun d => N.eqb (dp_id d) (call_driverId c))
                      (set_is_available false))
                   (with_trip_requests
                      (delete_where (fun r => N.eqb (tr_id r) (call_requestId c)))
                      db),
                 Thrown TypeError)).
  { unfold accept, acceptRequest, bind, select_single, read.
    rewrite Hreq. unfold insert_trip. rewrite Hins.
    unfold delete_requests, update_drivers, write. simpl.
    destruct (single (filter _ (rider_profiles db))); reflexivity. }
  rewrite E. simpl. repeat split.
  - apply delete_where_none.
  - unfold driver_rows. simpl. apply filter_update_where_forall; auto.
  - apply accept_unavailable. simpl. apply open_request_deleted.
Qed.

(** X8, witness: request 31 accepted in the name of driver 99, who has no
    profile. *)
Lemma acceptRequest_rejected_insert_loses_the_request_witness :
  snd (accept Sample2.call_unknown_driver Sample.dispatch_db) = Thrown TypeError
  /\ trips (fst (accept Sample2.call_unknown_driver Sample.dispatch_db))
     = trips Sample.dispatch_db
  /\ filter (fun r => N.eqb (tr_id r) 31)
       (trip_requests (fst (accept Sample2.call_unknown_driver
                              Sample.dispatch_db))) = []
  /\ Forall (fun d => dp_is_available d = false)
       (driver_rows (fst (accept Sample2.call_unknown_driver
                            Sample.dispatch_db)) 99)
  /\ accept Sample2.call_unknown_driver
       (fst (accept Sample2.call_unknown_driver Sample.dispatch_db))
     = (fst (accept Sample2.call_unknown_driver Sample.dispatch_db),
        Thrown (Error "Request no longer available")).
Proof.
  apply (@acceptRequest_rejected_insert_loses_the_request Sample.dispatch_db
           Sample2.call_unknown_driver (Sample.a_request 31 1 400 1000)).
  - vm_compute. reflexivity.
  - vm_compute. reflexivity.
Defined.

(** What a returned request says about the call of [requestTrip]. *)
Lemma requestTrip_stored
  (calculateDistance : Location -> Location -> Q) (cfg : system_config)
  db riderId pickup destination newRequestId now request :
  snd (requestTrip calculateDistance cfg riderId pickup destination
         newRequestId now db) = Returned (Some request) ->
  exists rider,
    single (filter (fun p => N.eqb (rp_id p) riderId) (rider_profiles db))
      = Some rider
    /\ isActive rider now = true
    /\ request
       = {| tr_id := newRequestId;
            tr_rider_id := Some riderId;
            tr_pickup := pickup;
            tr_destination := destination;
            tr_trip_type := short_drop;
            tr_estimated_distance_km :=
              Some (calculateDistance pickup destination);
            tr_estimated_fare :=
              Some (calculateFare cfg (calculateDistance pickup destination));
            tr_status := requested;
            tr_expires_at := Some (now + 10 * 60 * 1000)%Z;
            tr_created_at := now |}
    /\ request_insertable db request = true
    /\ fst (requestTrip calculateDistance cfg riderId pickup destination
              newRequestId now db)
       = with_trip_requests (fun rows => rows ++ [request]) db.
Proof.
  unfold requestTrip, bind, select_single, read.
  destruct (single (filter _ (rider_profiles db))) as [rider|] eqn:Er;
    [|discriminate].
  destruct (isActive rider now) eqn:Ea; simpl; [|discriminate].
  unfold insert_request.
  destruct (request_insertable db _) eqn:Ei; simpl; [|discriminate].
  intro H. inversion H; subst. exists rider. repeat split; assumption.
Qed.



(** X10: a request stored by [requestTrip] at time [now] outlives every
    sweep made up to ten minutes (600000 ms) later, that moment included,
    and is deleted by any sweep made after it. *)
Theorem request_lives_ten_minutes
  (calculateDistance : Location -> Location -> Q) (cfg : system_config)
  (db : database) (riderId : uuid) (pickup destination : Location)
  (newRequestId : uuid) (now : timestamptz) (request : trip_request)
  (sweep : timestamptz) :
  snd (requestTrip calculateDistance cfg riderId pickup destination
         newRequestId now db) = Returned (Some request) ->
  let db1 := fst (requestTrip calculateDistance cfg riderId pickup destination
                    newRequestId now db) in
  ((sweep <= now + 600000)%Z ->
   In request (trip_requests (fst (cleanupExpiredRequests sweep db1))))
  /\ ((now + 600000 < sweep)%Z ->
      ~ In request (trip_requests (fst (cleanupExpiredRequests sweep db1)))).
Proof.
  intros Hreq db1.
  destruct (requestTrip_stored _ _ _ _ _ _ _ _ Hreq)
    as [rider [_ [_ [Hval [_ Hdb1]]]]].
  subst db1. rewrite Hdb1.
  unfold cleanupExpiredRequests, delete_requests, write, delete_where. simpl.
  assert (Hexp : expires_before sweep request
                 = Z.ltb (now + 600000) sweep).
  { rewrite Hval. unfold expires_before. simpl.
    replace (now + 10 * 60 * 1000)%Z with (now + 600000)%Z by lia.
    reflexivity. }
  assert (Hst : trip_status_eqb (tr_status request) requested = true)
    by (rewrite Hval; reflexivity).
  split.
  - intro Hle. apply filter_In. split.
    + apply in_or_app. right. now left.
    + rewrite Hexp, Hst, andb_true_r. apply negb_true_iff.
      apply Z.ltb_ge. exact Hle.
  - intros Hlt Hin. apply filter_In in Hin. destruct Hin as [_ Hin].
    rewrite Hexp, Hst, andb_true_r in Hin. apply negb_true_iff in Hin.
    apply Z.ltb_ge in Hin. lia.
Qed.

(** X10, witness: request 33 stored at time 100 and a sweep at 600100. *)
Lemma request_lives_ten_minutes_witness :
  let db1 := fst (requestTrip Sample.flat_distance default_config 1
                    Sample.georgetown_mall Sample.sheriff_street 33 100
                    Sample.dispatch_db) in
  ((600100 <= 100 + 600000)%Z ->
   In Sample2.fresh_request
      (trip_requests (fst (cleanupExpiredRequests 600100 db1))))
  /\ ((100 + 600000 < 600100)%Z ->
      ~ In Sample2.fresh_request
          (trip_requests (fst (cleanupExpiredRequests 600100 db1)))).
Proof.
  apply (@request_lives_ten_minutes Sample.flat_distance default_config
           Sample.dispatch_db 1 Sample.georgetown_mall Sample.sheriff_street
           33 100 Sample2.fresh_request 600100).
  vm_compute. reflexivity.
Defined.

(** X11: the sweep keeps, in order, every request that has not expired (in
    particular every request without an expiry time); after it no request
    is both in state requested and past its expiry time at the sweep's clock
    reading; and a second sweep with the same reading changes nothing. *)
Theorem cleanupExpiredRequests_sweeps_only_the_expired
  (now : timestamptz) (db : database) :
  let db' := fst (cleanupExpiredRequests now db) in
  filter (fun r => negb (expires_before now r)) (trip_requests db')
  = filter (fun r => negb (expires_before now r)) (trip_requests db)
  /\ Forall (fun r => expires_before now r
                      && trip_status_eqb (tr_status r) requested = false)
       (trip_requests db')
  /\ cleanupExpiredRequests now db' = (db', Returned tt).
Proof.
  unfold cleanupExpiredRequests, delete_requests, write, delete_where. simpl.
  split; [|split].
  - induction (trip_requests db) as [|r rows IH]; simpl; [reflexivity|].
    destruct (expires_before now r) eqn:E; simpl.
    + destruct (trip_status_eqb (tr_status r) requested); simpl;
        [exact IH | rewrite E; exact IH].
    + rewrite E. simpl. now rewrite IH.
  - apply Forall_forall. intros r Hin.
    apply filter_In in Hin. destruct Hin as [_ Hin].
    now apply negb_true_iff in Hin.
  - unfold with_trip_requests. simpl. f_equal. f_equal.
    induction (trip_requests db) as [|r rows IH]; simpl; [reflexivity|].
    destruct (negb _) eqn:E; simpl; [rewrite E|]; now rewrite IH.
Qed.

(* ================================================================== *)
(** ** The life of a trip *)

(** X12: a trip id that matches no trip.  [startTrip] reports no error and
    changes nothing; [completeTrip] throws a TypeError and changes nothing;
    [processRefund] throws the error of the database (22P02) and changes
    nothing: no trip is touched and no payment row is written. *)
Theorem operations_on_an_unknown_trip
  (db : database) (tripId : uuid) (now : timestamptz)
  (actualDistance actualFare amount : Q) :
  filter (fun t => N.eqb (t_id t) tripId) (trips db) = [] ->
  startTrip tripId now db = (db, Returned tt)
  /\ completeTrip tripId actualDistance actualFare now db
     = (db, Thrown TypeError)
  /\ processRefund tripId amount db = (db, Thrown (PostgrestError "22P02")).
Proof.
  intro H.
  assert (Hw : forall f,
             with_trips (update_where (fun t => N.eqb (t_id t) tripId) f) db
             = db).
  { intro f. unfold with_trips. rewrite (update_where_none _ f _ H).
    destruct db; reflexivity. }
  split; [|split].
  - unfold startTrip, update_trips, write. now rewrite Hw.
  - unfold completeTrip, bind, update_trips_single.
    destruct (completed_values now actualDistance actualFare);
      [rewrite H, Hw|]; reflexivity.
  - reflexivity.
Qed.

(** X12, witness: trip 77 in a database without trips. *)
Lemma operations_on_an_unknown_trip_witness :
  startTrip 77 600 Sample.dispatch_db = (Sample.dispatch_db, Returned tt)
  /\ completeTrip 77 3 900 700 Sample.dispatch_db
     = (Sample.dispatch_db, Thrown TypeError)
  /\ processRefund 77 100 Sample.dispatch_db
     = (Sample.dispatch_db, Thrown (PostgrestError "22P02")).
Proof.
  apply (@operations_on_an_unknown_trip Sample.dispatch_db 77 600 3 900 100).
  reflexivity.
Defined.

Lemma new_trip_is_the_one_with_its_id db t :
  trip_insertable db t = true ->
  single (filter (fun r => N.eqb (t_id r) (t_id t)) (trips db ++ [t])) = Some t.
Proof.
  unfold trip_insertable. repeat rewrite andb_true_iff.
  intros [[[Hfresh _] _] _]. apply negb_true_iff in Hfresh.
  apply no_row_with_id in Hfresh.
  rewrite filter_app, Hfresh. simpl. now rewrite N.eqb_refl.
Qed.

(** X13: accept, start, complete.  When the distance and the fare of the
    last call fit their columns (DECIMAL(6,2) and DECIMAL(10,2)), after the
    three calls the trip is stored once, in state completed, with the three
    timestamps and the distance and fare as the columns round them; the
    driver has a row and is available again; both later calls report no
    error.  A distance of 12.345 is stored as 12.35. *)
Theorem accepted_trip_runs_to_completion
  (db : database) (c : accept_call) (request : trip_request)
  (riderProfile : rider_profile) (started finished_at : timestamptz)
  (actualDistance actualFare distance fare : Q) :
  acceptable db c request riderProfile ->
  to_numeric 6 2 actualDistance = Some distance ->
  to_numeric 10 2 actualFare = Some fare ->
  let tripId := call_newTripId c in
  let db1 := fst (accept c db) in
  let db2 := fst (startTrip tripId started db1) in
  let db3 := fst (completeTrip tripId actualDistance actualFare finished_at db2) in
  snd (startTrip tripId started db1) = Returned tt
  /\ snd (completeTrip tripId actualDistance actualFare finished_at db2)
     = Returned tt
  /\ trip_row db3 tripId
     = Some (set_completed finished_at distance fare
               (set_picked_up started
                  (trip_of_request request (call_driverId c)
                     (call_vehicleId c) (call_newTripId c) (call_now c))))
  /\ driver_rows db3 (call_driverId c) <> []
  /\ Forall (fun d => dp_is_available d = true)
       (driver_rows db3 (call_driverId c)).
Proof.
  intros Hok Hdist Hfare tripId db1 db2 db3.
  destruct (accept_goes_through Hok) as [db' [Hacc [Htrips [_ [Hdrv _]]]]].
  assert (Hdb1 : db1 = db') by (subst db1; now rewrite Hacc).
  destruct Hok as [_ [Hins _]].
  pose proof (new_trip_is_the_one_with_its_id db _ Hins) as H1.
  simpl in H1. rewrite <- Htrips, <- Hdb1 in H1. fold tripId in H1.
  destruct (startTrip_status db1 tripId started H1) as [E2 _].
  assert (H2 : single (filter (fun r => N.eqb (t_id r) tripId) (trips db2))
               = Some (set_picked_up started
                         (trip_of_request request (call_driverId c)
                            (call_vehicleId c) (call_newTripId c)
                            (call_now c)))).
  { subst db2. rewrite E2. simpl.
    apply trip_by_id_updated; [reflexivity | exact H1]. }
  destruct (@completeTrip_runs db2 tripId actualDistance actualFare
              finished_at _ distance fare H2 Hdist Hfare) as [Hr3 [Ht3 Hd3]].
  assert (Hd2 : driver_profiles db2
                = update_where (fun d => N.eqb (dp_id d) (call_driverId c))
                    (set_is_available false) (driver_profiles db)).
  { subst db2. rewrite E2. simpl. rewrite Hdb1. exact Hdrv. }
  split; [now rewrite E2|]. split; [exact Hr3|]. split; [|split].
  - unfold trip_row. subst db3. rewrite Ht3.
    apply trip_by_id_updated; [reflexivity | exact H2].
  - unfold trip_insertable in Hins. repeat rewrite andb_true_iff in Hins.
    destruct Hins as [[_ Href] _]. apply references_driver_rows in Href.
    unfold driver_rows in *. subst db3. rewrite Hd3, Hd2.
    rewrite !filter_map_if by reflexivity.
    intro Hnil. apply map_eq_nil in Hnil. apply map_eq_nil in Hnil.
    apply map_eq_nil in Hnil. contradiction.
  - unfold driver_rows. subst db3. rewrite Hd3.
    apply filter_update_where_forall; auto.
    intros r Hr. simpl. now rewrite N.eqb_sym.
Qed.

(** X13, witness: driver 11 accepts request 31 at 500, starts at 600 and
    completes at 700 with a distance of 12.345 km and a fare of 900. *)
Lemma accepted_trip_runs_to_completion_witness :
  let tripId := call_newTripId Sample.call_11 in
  let db1 := fst (accept Sample.call_11 Sample.dispatch_db) in
  let db2 := fst (startTrip tripId 600 db1) in
  let db3 := fst (completeTrip tripId (12345 # 1000) 900 700 db2) in
  snd (startTrip tripId 600 db1) = Returned tt
  /\ snd (completeTrip tripId (12345 # 1000) 900 700 db2) = Returned tt
  /\ trip_row db3 tripId
     = Some (set_completed 700 (247 # 20) 900
               (set_picked_up 600
                  (trip_of_request (Sample.a_request 31 1 400 1000)
                     11 21 41 500)))
  /\ driver_rows db3 11 <> []
  /\ Forall (fun d => dp_is_available d = true) (driver_rows db3 11).
Proof.
  apply (@accepted_trip_runs_to_completion Sample.dispatch_db Sample.call_11
           (Sample.a_request 31 1 400 1000)
           (Sample.a_rider 1 101 sub_active (Some 5000%Z)) 600 700
           (12345 # 1000) 900 (247 # 20) 900).
  - vm_compute. repeat split.
  - vm_compute. reflexivity.
  - vm_compute. reflexivity.
Defined.

(* ================================================================== *)
(** ** Refunds *)

Lemma refunds_change_nothing amounts : forall db tripId,
  perform_all (map (OpRefund tripId) amounts) db = db.
Proof.
  induction amounts as [|a amounts IH]; intros db tripId; [reflexivity|].
  change (perform_all (map (OpRefund tripId) (a :: amounts)) db)
    with (perform_all (map (OpRefund tripId) amounts)
            (fst (processRefund tripId a db))).
  rewrite processRefund_fails. simpl. apply IH.
Qed.

(** X14: no refund is ever made.  Every call of [processRefund] throws the
    error the database raises (22P02: 'refunded' is no label of the type
    [trip_status]) and leaves the database as it was, so after any number
    of refund calls the trips and the payments are what they were before.
    The INSERT of the function names a column trip_id, which
    payment_transactions does not have. *)
Theorem processRefund_fails_on_every_call :
  (forall (db : database) (tripId : uuid) (amount : Q),
      processRefund tripId amount db = (db, Thrown (PostgrestError "22P02")))
  /\ (forall (db : database) (tripId : uuid) (amounts : list Q),
         perform_all (map (OpRefund tripId) amounts) db = db)
  /\ trip_status_of_label "refunded" = None
  /\ columns_exist payment_transactions_columns ["trip_id"%string] = false
  /\ status_of (fst (processRefund 41 100 History.completed_db)) 41
     = Some completed.
Proof.
  split; [|split; [|split; [|split]]].
  - intros db tripId amount. apply processRefund_fails.
  - intros db tripId amounts. apply refunds_change_nothing.
  - reflexivity.
  - reflexivity.
  - vm_compute. reflexivity.
Qed.

(* ================================================================== *)
(** ** Dashboard metrics *)

Lemma getDashboardMetrics_reads today db :
  getDashboardMetrics today db
  = (db,
     Returned
       {| activeDrivers := List.length (filter dp_is_online (driver_profiles db));
          activeTrips :=
            List.length
              (filter (fun t => trip_status_eqb (t_status t) accepted
                                || trip_status_eqb (t_status t) picked_up)
                 (trips db));
          pendingRequests :=
            List.length
              (filter (fun r => trip_status_eqb (tr_status r) requested)
                 (trip_requests db));
          todayTripsCount :=
            List.length (filter (completed_since today) (trips db));
          todayRevenue := revenue (filter (completed_since today) (trips db)) |}).
Proof. reflexivity. Qed.

Lemma count_split {A : Type} (a b : A -> bool) rows :
  (List.length (filter b (filter (fun r => negb (a r)) rows))
   + List.length (filter (fun r => a r && b r) rows))%nat
  = List.length (filter b rows).
Proof.
  induction rows as [|r rows IH]; simpl; [reflexivity|].
  destruct (a r) eqn:Ea, (b r) eqn:Eb; simpl; rewrite ?Eb; simpl; lia.
Qed.

(** X15: on the dashboard an accepted request moves from the pending
    requests to the active trips: after [acceptRequest] has gone through
    there is one pending request less and one active trip more, and the
    numbers of online drivers and of today's completed trips are as
    before.  Reading the metrics changes nothing. *)
Theorem dashboard_after_accept
  (db : database) (c : accept_call) (request : trip_request)
  (riderProfile : rider_profile) (today : timestamptz) :
  acceptable db c request riderProfile ->
  exists before after,
    getDashboardMetrics today db = (db, Returned before)
    /\ snd (getDashboardMetrics today (fst (accept c db))) = Returned after
    /\ activeTrips after = S (activeTrips before)
    /\ S (pendingRequests after) = pendingRequests before
    /\ activeDrivers after = activeDrivers before
    /\ todayTripsCount after = todayTripsCount before.
Proof.
  intro Hok.
  destruct (accept_goes_through Hok) as [db' [Hacc [Ht [Hr [Hd _]]]]].
  rewrite Hacc. simpl fst.
  eexists. eexists.
  split; [apply getDashboardMetrics_reads|].
  split; [rewrite getDashboardMetrics_reads; reflexivity|].
  simpl. rewrite Ht, Hr, Hd. repeat split.
  - rewrite filter_app, length_app. simpl. lia.
  - destruct Hok as [Hreq _]. apply single_some in Hreq.
    pose proof (count_split (fun r => N.eqb (tr_id r) (call_requestId c))
                  (fun r => trip_status_eqb (tr_status r) requested)
                  (trip_requests db)) as Hc.
    cbv beta in Hc. unfold open_request in Hreq. rewrite Hreq in Hc.
    simpl in Hc. unfold delete_where. lia.
  - rewrite filter_map_if by reflexivity. apply length_map.
  - rewrite filter_app, length_app. simpl. lia.
Qed.

(** X15, witness: driver 11 accepts request 31. *)
Lemma dashboard_after_accept_witness :
  exists before after,
    getDashboardMetrics 0 Sample.dispatch_db
    = (Sample.dispatch_db, Returned before)
    /\ snd (getDashboardMetrics 0 (fst (accept Sample.call_11
                                          Sample.dispatch_db)))
       = Returned after
    /\ activeTrips after = S (activeTrips before)
    /\ S (pendingRequests after) = pendingRequests before
    /\ activeDrivers after = activeDrivers before
    /\ todayTripsCount after = todayTripsCount before.
Proof.
  apply (@dashboard_after_accept Sample.dispatch_db Sample.call_11
           (Sample.a_request 31 1 400 1000)
           (Sample.a_rider 1 101 sub_active (Some 5000%Z)) 0).
  vm_compute. repeat split.
Defined.

(* ================================================================== *)
(** ** The two ways to complete a trip *)

(** X17: [completeTripFlow] and [completeTrip] (whose distance and fare
    arguments come in the other order) end the same way and leave the same
    database, the notifications table apart. *)
Theorem completeTripFlow_agrees_with_completeTrip
  (db : database) (tripId : uuid) (actualFare actualDistance : Q)
  (now : timestamptz) :
  snd (completeTripFlow tripId actualFare actualDistance now db)
  = snd (completeTrip tripId actualDistance actualFare now db)
  /\ without_notifications
       (fst (completeTripFlow tripId actualFare actualDistance now db))
     = without_notifications
         (fst (completeTrip tripId actualDistance actualFare now db)).
Proof.
  unfold completeTripFlow, completeTrip, bind, update_trips_single.
  destruct (completed_values now actualDistance actualFare) as [values|];
    [|split; reflexivity].
  destruct (single (map _ (filter _ (trips db)))) as [trip|];
    [|split; reflexivity].
  unfold increment_rider_trips, increment_driver_trips, update_drivers,
    insert_notifications, write. cbn.
  destruct (references u_id (users db) (t_rider_id trip)
            && (references u_id (users db) (t_driver_id trip) && true));
    split; reflexivity.
Qed.

(** X18: the completion notices of [completeTripFlow] are addressed with the
    rider and driver profile ids.  Unless both of these are also ids of
    user rows, the insert is rejected and no notice is stored; when both
    are, and the distance and the fare fit their columns, the two notices
    are appended.  With a distance or a fare that does not fit, the flow
    stops before the notices and none is stored. *)
Theorem completeTripFlow_notices_need_user_ids
  (db : database) (tripId : uuid) (t : trip) (actualFare actualDistance : Q)
  (now : timestamptz) :
  trip_row db tripId = Some t ->
  notifications (fst (completeTripFlow tripId actualFare actualDistance now db))
  = match completed_values now actualDistance actualFare with
    | Some _ =>
        if references u_id (users db) (t_rider_id t)
           && references u_id (users db) (t_driver_id t)
        then notifications db
             ++ [trip_completed_notice (t_rider_id t);
                 trip_completed_notice (t_driver_id t)]
        else notifications db
    | None => notifications db
    end.
Proof.
  unfold trip_row. intro H.
  unfold completeTripFlow, completed_values, bind, update_trips_single.
  destruct (to_numeric 6 2 actualDistance) as [distance|]; [|reflexivity].
  destruct (to_numeric 10 2 actualFare) as [fare|]; [|reflexivity].
  rewrite (single_map (set_completed now distance fare) _ H).
  unfold increment_rider_trips, increment_driver_trips, update_drivers,
    insert_notifications, write. cbn.
  rewrite andb_true_r.
  destruct (references u_id (users db) (t_rider_id t)
            && references u_id (users db) (t_driver_id t)); reflexivity.
Qed.

(** X18, witness: trip 41 of rider profile 1 and driver profile 11; the
    users are 101, 111 and 112, so nothing is stored. *)
Lemma completeTripFlow_notices_need_user_ids_witness :
  notifications (fst (completeTripFlow 41 900 3 700 History.accepted_db))
  = match completed_values 700 3 900 with
    | Some _ =>
        if references u_id (users History.accepted_db) (Some 1%N)
           && references u_id (users History.accepted_db) (Some 11%N)
        then notifications History.accepted_db
             ++ [trip_completed_notice (Some 1%N);
                 trip_completed_notice (Some 11%N)]
        else notifications History.accepted_db
    | None => notifications History.accepted_db
    end.
Proof.
  apply (@completeTripFlow_notices_need_user_ids History.accepted_db 41
           (trip_of_request (Sample.a_request 31 1 400 1000) 11 21 41 500)
           900 3 700).
  vm_compute. reflexivity.
Defined.

(* ================================================================== *)
(** ** The location trail *)

Lemma accept_keeps_location_history c db :
  location_history (fst (accept c db)) = location_history db.
Proof.
  unfold accept, acceptRequest, bind, select_single, read.
  destruct (single (filter _ (trip_requests db))) as [request|];
    [|reflexivity].
  unfold insert_trip, delete_requests, update_drivers, insert_notification,
    write.
  destruct (trip_insertable db _); cbn;
    destruct (single (filter _ (rider_profiles db))) as [rp|]; cbn;
    try reflexivity;
    destruct (references u_id (users db) (rp_user_id rp)); reflexivity.
Qed.

Lemma perform_extends_location_history op db :
  exists added,
    location_history (perform op db) = location_history db ++ added.
Proof.
  destruct op as [c | tripId now | tripId d f now | tripId amount
                 | tripId driverId la lo sp r u | now]; simpl.
  - exists []. rewrite app_nil_r. apply accept_keeps_location_history.
  - exists []. now rewrite app_nil_r.
  - exists []. rewrite app_nil_r.
    unfold completeTrip, bind, update_trips_single.
    destruct (completed_values now d f); [|reflexivity].
    destruct (single (map _ (filter _ (trips db)))); reflexivity.
  - exists []. now rewrite app_nil_r.
  - unfold recordDriverLocation, bind, insert_location_sample, update_drivers,
      write. cbn.
    destruct (location_values _) as [row|];
      [|exists []; now rewrite app_nil_r].
    destruct (existsb _ (trips db) && existsb _ (driver_profiles db));
      [eexists; reflexivity | exists []; now rewrite app_nil_r].
  - exists []. now rewrite app_nil_r.
Qed.

(** X19: the location trail only grows.  Whatever operations are performed
    (accept, start, complete, refund, record a location, sweep), the samples
    stored before are all still there afterwards, unchanged and in the same
    order, with the new ones after them. *)
Theorem location_trail_is_append_only (ops : list operation) (db : database) :
  exists added,
    location_history (perform_all ops db) = location_history db ++ added.
Proof.
  unfold perform_all. revert db.
  induction ops as [|op ops IH]; intro db; simpl.
  - exists []. now rewrite app_nil_r.
  - destruct (perform_extends_location_history op db) as [a1 E1].
    destruct (IH (perform op db)) as [a2 E2].
    exists (a1 ++ a2). rewrite E2, E1. now rewrite app_assoc.
Qed.

Lemma StronglySorted_impl {A : Type} (P R : A -> A -> Prop) l :
  (forall a b, P a b -> R a b) -> StronglySorted P l -> StronglySorted R l.
Proof.
  intros H Hs. induction Hs as [|a l Hs IH Hall]; constructor.
  - assumption.
  - eapply Forall_impl; [|exact Hall]. intros b. apply H.
Qed.

Lemma StronglySorted_map {A B : Type} (f : A -> B) (R : B -> B -> Prop) l :
  StronglySorted (fun a b => R (f a) (f b)) l -> StronglySorted R (map f l).
Proof.
  induction 1 as [|a l Hs IH Hall]; simpl; constructor.
  - assumption.
  - now apply Forall_map.
Qed.

(** X20: the route of a trip consists of exactly the samples stored for
    that trip, each once, and its points come in ascending order of
    recording time; reading it changes nothing. *)
Theorem route_is_the_samples_of_the_trip_in_time_order
  (db : database) (tripId : uuid) :
  exists route,
    routeHistory tripId db = (db, Returned route)
    /\ Permutation
         (filter (fun s => N.eqb (lh_trip_id s) tripId) (location_history db))
         route
    /\ StronglySorted Z.le (map route_timestamp (routePoints route)).
Proof.
  eexists. split; [reflexivity|]. split.
  - apply order_by_asc_perm.
  - unfold routePoints. rewrite map_map. simpl.
    apply StronglySorted_map.
    eapply StronglySorted_impl; [|apply order_by_asc_sorted].
    intros a b Hab. unfold ascending in Hab. rewrite Zle_Qle. exact Hab.
Qed.

(** X21: a sample whose latitude, longitude and speed fit their columns,
    recorded for a stored trip by a stored driver, is in the route of that
    trip afterwards, with these three values as the columns round them,
    next to all the points that were there before; the routes of other
    trips are as before. *)
Theorem recorded_sample_joins_the_route
  (db : database) (tripId driverId : uuid) (latitude longitude speed : Q)
  (recorded updated : timestamptz) (other : uuid) (sample : location_sample) :
  existsb (fun t => N.eqb (t_id t) tripId) (trips db) = true ->
  existsb (fun d => N.eqb (dp_id d) driverId) (driver_profiles db) = true ->
  other <> tripId ->
  location_values {| lh_trip_id := tripId; lh_driver_id := driverId;
                     lh_latitude := latitude; lh_longitude := longitude;
                     lh_location := POINT longitude latitude;
                     lh_speed_kmh := speed; lh_recorded_at := recorded |}
  = Some sample ->
  let db' := fst (recordDriverLocation tripId driverId latitude longitude
                    speed recorded updated db) in
  exists before after,
    snd (routeHistory tripId db) = Returned before
    /\ snd (routeHistory tripId db') = Returned after
    /\ Permutation (sample :: before) after
    /\ snd (routeHistory other db') = snd (routeHistory other db).
Proof.
  intros Ht Hd Hother Hvalues db'.
  assert (Hid : lh_trip_id sample = tripId).
  { unfold location_values in Hvalues. simpl in Hvalues.
    destruct (to_numeric 10 8 latitude); [|discriminate].
    destruct (to_numeric 11 8 longitude); [|discriminate].
    destruct (to_numeric 5 2 speed); [|discriminate].
    inversion Hvalues. reflexivity. }
  assert (E : location_history db' = location_history db ++ [sample]).
  { subst db'. unfold recordDriverLocation, bind, insert_location_sample,
      update_drivers, write. rewrite Hvalues. cbn. rewrite Ht, Hd.
    reflexivity. }
  clearbody db'.
  exists (order_by_asc (fun s => inject_Z (lh_recorded_at s))
            (filter (fun s => N.eqb (lh_trip_id s) tripId)
               (location_history db))),
         (order_by_asc (fun s => inject_Z (lh_recorded_at s))
            (filter (fun s => N.eqb (lh_trip_id s) tripId)
               (location_history db ++ [sample]))).
  split; [reflexivity|].
  split; [unfold routeHistory, read; simpl; now rewrite E|]. split.
  - rewrite filter_app. simpl. rewrite Hid, N.eqb_refl.
    eapply Permutation_trans; [|apply order_by_asc_perm].
    eapply Permutation_trans; [|apply Permutation_cons_append].
    apply perm_skip. apply Permutation_sym. apply order_by_asc_perm.
  - unfold routeHistory, read. simpl. rewrite E, filter_app. simpl.
    rewrite Hid.
    destruct (N.eqb tripId other) eqn:En.
    + apply N.eqb_eq in En. congruence.
    + now rewrite app_nil_r.
Qed.

(** X21, witness: driver 11 reports a position on trip 41 with a speed of
    30.126 km/h, which is stored as 30.13. *)
Lemma recorded_sample_joins_the_route_witness :
  let db' := fst (recordDriverLocation 41 11 (1 # 10) (2 # 10) (30126 # 1000)
                    200 200 History.accepted_db) in
  let sample := {| lh_trip_id := 41; lh_driver_id := 11;
                   lh_latitude := 1 # 10; lh_longitude := 1 # 5;
                   lh_location := POINT (2 # 10) (1 # 10);
                   lh_speed_kmh := 3013 # 100; lh_recorded_at := 200 |} in
  exists before after,
    snd (routeHistory 41 History.accepted_db) = Returned before
    /\ snd (routeHistory 41 db') = Returned after
    /\ Permutation (sample :: before) after
    /\ snd (routeHistory 42 db') = snd (routeHistory 42 History.accepted_db).
Proof.
  apply (@recorded_sample_joins_the_route History.accepted_db 41 11
           (1 # 10) (2 # 10) (30126 # 1000) 200 200 42).
  - vm_compute. reflexivity.
  - vm_compute. reflexivity.
  - discriminate.
  - vm_compute. reflexivity.
Defined.

(** X22: a position reported for a trip id that matches no trip is not
    kept in the trail, yet the call reports no error and still overwrites
    the stored position of the driver. *)
Theorem sample_for_unknown_trip_is_dropped
  (db : database) (tripId driverId : uuid) (latitude longitude speed : Q)
  (recorded updated : timestamptz) :
  existsb (fun t => N.eqb (t_id t) tripId) (trips db) = false ->
  let db' := fst (recordDriverLocation tripId driverId latitude longitude
                    speed recorded updated db) in
  snd (recordDriverLocation tripId driverId latitude longitude speed
         recorded updated db) = Returned tt
  /\ location_history db' = location_history db
  /\ driver_rows db' driverId
     = map (set_current_location (POINT longitude latitude) updated)
         (driver_rows db driverId).
Proof.
  intros Ht db'. subst db'.
  unfold recordDriverLocation, bind, insert_location_sample, update_drivers,
    write. cbn.
  destruct (location_values _) as [row|]; cbn; [rewrite Ht; simpl|];
    (repeat split;
     unfold driver_rows; simpl; apply filter_update_where; reflexivity).
Qed.

(** X22, witness: driver 11 reports a position on trip 77, which does not
    exist. *)
Lemma sample_for_unknown_trip_is_dropped_witness :
  let db' := fst (recordDriverLocation 77 11 (1 # 10) (2 # 10) 30 200 200
                    Sample.dispatch_db) in
  snd (recordDriverLocation 77 11 (1 # 10) (2 # 10) 30 200 200
         Sample.dispatch_db) = Returned tt
  /\ location_history db' = location_history Sample.dispatch_db
  /\ driver_rows db' 11
     = map (set_current_location (POINT (2 # 10) (1 # 10)) 200)
         (driver_rows Sample.dispatch_db 11).
Proof.
  apply (@sample_for_unknown_trip_is_dropped Sample.dispatch_db 77 11
           (1 # 10) (2 # 10) 30 200 200).
  reflexivity.
Defined.

(* ================================================================== *)
(** ** The two subscription checks *)

(** X23: with the clock after the epoch, a rider whom the inline check of
    [requestTrip] lets through is also active for the stored function
    [is_subscription_active]. *)
Theorem requestTrip_check_implies_is_subscription_active
  (db : database) (now : timestamptz) (user : uuid) (p : rider_profile) :
  (0 <= now)%Z ->
  filter (fun r => col_is (rp_user_id r) user) (rider_profiles db) = [p] ->
  isActive p now = true ->
  is_subscription_active db now user role_rider = Some true.
Proof.
  intros Hnow Hrow Hact.
  apply isActive_iff in Hact. destruct Hact as [Hst Hend].
  unfold is_subscription_active, select_into. rewrite Hrow, Hst.
  destruct (rp_subscription_end_date p) as [e|]; simpl in *.
  - apply Z.ltb_lt in Hend. now rewrite Hend.
  - lia.
Qed.

(** X23, witness: rider 1 of the dispatch sample, paid up to 5000, at time
    100. *)
Lemma requestTrip_check_implies_is_subscription_active_witness :
  is_subscription_active Sample.dispatch_db 100 101 role_rider = Some true.
Proof.
  apply (@requestTrip_check_implies_is_subscription_active Sample.dispatch_db
           100 101 (Sample.a_rider 1 101 sub_active (Some 5000%Z))).
  - lia.
  - reflexivity.
  - reflexivity.
Defined.

(* ================================================================== *)
(** ** The two accept paths *)

(** X24: where [acceptRequest] goes through and the request id is that of
    one row only, [acceptTripRequest] goes through as well.  It returns the
    trip it stored, without vehicle and with the night flag of that moment,
    leaves the same requests and the same driver rows as [acceptRequest],
    and writes no notification. *)
Theorem acceptTripRequest_agrees_with_acceptRequest
  (isNightTime : timestamptz -> bool)
  (db : database) (c : accept_call) (request : trip_request)
  (riderProfile : rider_profile) :
  acceptable db c request riderProfile ->
  single (filter (fun r => N.eqb (tr_id r) (call_requestId c))
            (trip_requests db)) = Some request ->
  let other := acceptTripRequest isNightTime (call_requestId c)
                 (call_driverId c) (call_newTripId c) (call_now c) db in
  let trip := trip_from_request isNightTime request (call_driverId c)
                (call_newTripId c) (call_now c) in
  snd other = Returned (Some trip)
  /\ trips (fst other) = trips db ++ [trip]
  /\ trip_requests (fst other) = trip_requests (fst (accept c db))
  /\ driver_profiles (fst other) = driver_profiles (fst (accept c db))
  /\ notifications (fst other) = notifications db.
Proof.
  intros Hok Hone other trip.
  destruct (accept_goes_through Hok) as [db' [Hacc [_ [Hr [Hd _]]]]].
  rewrite Hacc. simpl fst. rewrite Hr, Hd.
  destruct Hok as [Hreq [Hins _]].
  assert (Hins' : trip_insertable db trip = true).
  { unfold trip_insertable in *. simpl in *.
    repeat rewrite andb_true_iff in Hins.
    destruct Hins as [[[H1 H2] H3] _].
    now rewrite H1, H2, H3. }
  subst other.
  unfold acceptTripRequest, createTripFromRequest, bind, select_single, read.
  rewrite Hreq, Hone. unfold insert_trip. fold trip. rewrite Hins'.
  unfold delete_requests, update_drivers, write, ret. cbn.
  repeat split.
Qed.

(** X24, witness: request 31 accepted by driver 11 on either path. *)
Lemma acceptTripRequest_agrees_with_acceptRequest_witness :
  let night := fun _ : timestamptz => false in
  let other := acceptTripRequest night 31 11 41 500 Sample.dispatch_db in
  let trip := trip_from_request night (Sample.a_request 31 1 400 1000)
                11 41 500 in
  snd other = Returned (Some trip)
  /\ trips (fst other) = trips Sample.dispatch_db ++ [trip]
  /\ trip_requests (fst other)
     = trip_requests (fst (accept Sample.call_11 Sample.dispatch_db))
  /\ driver_profiles (fst other)
     = driver_profiles (fst (accept Sample.call_11 Sample.dispatch_db))
  /\ notifications (fst other) = notifications Sample.dispatch_db.
Proof.
  apply (@acceptTripRequest_agrees_with_acceptRequest
           (fun _ : timestamptz => false) Sample.dispatch_db Sample.call_11
           (Sample.a_request 31 1 400 1000)
           (Sample.a_rider 1 101 sub_active (Some 5000%Z))).
  - vm_compute. repeat split.
  - vm_compute. reflexivity.
Defined.

(* ================================================================== *)
(** ** Going online and the end of a trial *)

(** X25: the trial check locks out a rider whose trial is over.  For the
    one rider row of a user, in state trial with a trial end date before
    the clock reading (a missing date counts as the epoch), the check goes
    through, the row is expired, and from then on the stored function
    [is_subscription_active] answers false at every time, whatever
    subscription end date the row carries. *)
Theorem checkTrialExpired_locks_out_the_rider
  (db : database) (userId : uuid) (p : rider_profile)
  (now later : timestamptz) :
  filter (fun r => col_is (rp_user_id r) userId) (rider_profiles db) = [p] ->
  rp_subscription_status p = sub_trial ->
  (new_Date (rp_trial_end_date p) < now)%Z ->
  snd (checkTrialExpired userId now db) = Returned tt
  /\ filter (fun r => col_is (rp_user_id r) userId)
       (rider_profiles (fst (checkTrialExpired userId now db)))
     = [expire_rider p]
  /\ is_subscription_active (fst (checkTrialExpired userId now db)) later
       userId role_rider = Some false.
Proof.
  intros Hrow Hst Hend.
  assert (E : rider_profiles (fst (checkTrialExpired userId now db))
              = update_where (fun r => col_is (rp_user_id r) userId)
                  expire_rider (rider_profiles db)
              /\ snd (checkTrialExpired userId now db) = Returned tt).
  { unfold checkTrialExpired, bind, select_single, read.
    rewrite Hrow. simpl. rewrite Hst. simpl.
    apply Z.ltb_lt in Hend. rewrite Hend.
    unfold insert_notification, write. cbn.
    destruct (existsb _ (users db)); split; reflexivity. }
  destruct E as [E Hr].
  assert (Hrow' : filter (fun r => col_is (rp_user_id r) userId)
                    (rider_profiles (fst (checkTrialExpired userId now db)))
                  = [expire_rider p]).
  { rewrite E, filter_update_where by reflexivity. now rewrite Hrow. }
  split; [exact Hr|]. split; [exact Hrow'|].
  unfold is_subscription_active, select_into. rewrite Hrow'. simpl.
  destruct (rp_subscription_end_date p); reflexivity.
Qed.

(** X25, witness: the trial of user 101 ended at 50; the check runs at 100
    and the question is asked at 200, while the subscription end date of
    the row is 5000. *)
Lemma checkTrialExpired_locks_out_the_rider_witness :
  snd (checkTrialExpired 101 100 Sample3.trial_ending_db) = Returned tt
  /\ filter (fun r => col_is (rp_user_id r) 101)
       (rider_profiles (fst (checkTrialExpired 101 100
                               Sample3.trial_ending_db)))
     = [expire_rider Sample3.trial_rider]
  /\ is_subscription_active
       (fst (checkTrialExpired 101 100 Sample3.trial_ending_db)) 200 101
       role_rider = Some false.
Proof.
  apply (@checkTrialExpired_locks_out_the_rider Sample3.trial_ending_db 101
           Sample3.trial_rider 100 200).
  - reflexivity.
  - reflexivity.
  - vm_compute. reflexivity.
Defined.

Lemma left_join_vehicles_nonempty db dp :
  exists v, In v (left_join_vehicles db dp).
Proof.
  unfold left_join_vehicles.
  destruct (filter _ (vehicles db)) as [|v vs].
  - exists None. now left.
  - exists (Some v). now left.
Qed.

(** X26: a driver who goes online is in reach of the search query.  After
    [goOnline] at a point within the radius, an approved driver with an
    active or trial subscription status and a user row is among the rows
    the query of [find_nearby_drivers] yields for that search, with the
    distance of the point, as long as at most 20 rows qualify. *)
Theorem driver_who_goes_online_is_found
  (ST_Distance : geography -> geography -> Q)
  (db : database) (dp : driver_profile) (u : user_row)
  (latitude longitude : Q) (now : timestamptz) (la lo radius : Q)
  (out : list nearby_driver) :
  In dp (driver_profiles db) ->
  In u (users db) ->
  dp_user_id dp = Some (u_id u) ->
  dp_verification_status dp = approved ->
  dp_subscription_status dp = sub_active
  \/ dp_subscription_status dp = sub_trial ->
  ST_Distance (POINT longitude latitude) (POINT lo la) <= radius * 1000 ->
  let db' := fst (goOnline (dp_id dp) latitude longitude now db) in
  (List.length (matching_rows ST_Distance db' (POINT lo la) radius) <= 20)%nat ->
  return_query_yields ST_Distance db' la lo radius out ->
  exists row,
    In row out
    /\ driver_id row = dp_id dp
    /\ distance_km row
       = ST_Distance (POINT longitude latitude) (POINT lo la) / 1000.
Proof.
  intros Hdp Hu Huser Hver Hsub Hnear db' Hlen Hout.
  set (dp' := set_online (POINT longitude latitude) now dp).
  assert (Hdp' : In dp' (driver_profiles db')).
  { subst db'. unfold goOnline, update_drivers, write. simpl.
    unfold update_where. apply in_map_iff. exists dp.
    rewrite N.eqb_refl. split; [reflexivity | assumption]. }
  assert (Husers : users db' = users db) by reflexivity.
  destruct (left_join_vehicles_nonempty db' dp') as [v Hv].
  assert (Hfrom : In (dp', u, v) (from_clause db')).
  { unfold from_clause. apply in_flat_map. exists dp'. split; [assumption|].
    apply in_flat_map. exists u. rewrite Husers. split; [assumption|].
    replace (col_is (dp_user_id dp') (u_id u)) with true.
    - apply in_map_iff. exists v. split; [reflexivity | assumption].
    - subst dp'. simpl. rewrite Huser. simpl. symmetry. apply N.eqb_refl. }
  assert (Hwhere : where_clause ST_Distance (POINT lo la) radius (dp', u, v)
                   = true).
  { unfold where_clause. subst dp'. simpl. rewrite Hver. simpl.
    apply Qle_bool_iff in Hnear. rewrite Hnear, andb_true_r.
    destruct Hsub as [-> | ->]; reflexivity. }
  exists (select_list ST_Distance (POINT lo la) (dp', u, v)).
  split; [|split; reflexivity].
  clearbody db'.
  destruct Hout as [sorted [Hp [_ ->]]]. unfold limit.
  rewrite firstn_all2
    by (now rewrite <- (Permutation_length Hp), length_map).
  eapply Permutation_in; [exact Hp|].
  apply in_map. apply filter_In. split; assumption.
Qed.

(** X26, witness: driver 11 goes online at the search point. *)
Lemma driver_who_goes_online_is_found_witness :
  let db' := fst (goOnline 11 0 0 100 Sample3.offline_db) in
  exists row,
    In row (return_query Sample.grid_metres db' 0 0 5)
    /\ driver_id row = 11%N
    /\ distance_km row
       = Sample.grid_metres (POINT 0 0) (POINT 0 0) / 1000.
Proof.
  apply (@driver_who_goes_online_is_found Sample.grid_metres
           Sample3.offline_db Sample3.offline_driver (Sample.a_user 111)
           0 0 100 0 0 5).
  - now left.
  - now left.
  - reflexivity.
  - reflexivity.
  - now left.
  - vm_compute. discriminate.
  - vm_compute. repeat constructor.
  - apply return_query_is_a_result.
Defined.

(* ================================================================== *)
(** ** Availability after accept and complete *)

(** X27: when [acceptRequest] returns a trip, the accepting driver has a
    profile row and is_available is false on it; when [completeTrip] is
    called on a stored trip with a distance and a fare that fit their
    columns, it goes through and is_available is true for the driver of
    the trip. *)
Theorem accept_clears_and_complete_sets_availability
  (db1 : database) (c : accept_call) (returned : trip)
  (db2 : database) (tripId driverId : uuid) (t : trip)
  (actualDistance actualFare distance fare : Q) (now : timestamptz) :
  snd (accept c db1) = Returned returned ->
  single (filter (fun r => N.eqb (t_id r) tripId) (trips db2)) = Some t ->
  t_driver_id t = Some driverId ->
  to_numeric 6 2 actualDistance = Some distance ->
  to_numeric 10 2 actualFare = Some fare ->
  (driver_rows (fst (accept c db1)) (call_driverId c) <> []
   /\ Forall (fun d => dp_is_available d = false)
        (driver_rows (fst (accept c db1)) (call_driverId c)))
  /\ (snd (completeTrip tripId actualDistance actualFare now db2) = Returned tt
      /\ Forall (fun d => dp_is_available d = true)
           (driver_rows
              (fst (completeTrip tripId actualDistance actualFare now db2))
              driverId)).
Proof.
  intros Hacc Htrip Hdriver Hdist Hfare. split.
  - destruct (@accept_returned db1 c returned Hacc) as [request [rp Hok]].
    destruct (accept_goes_through Hok) as [db' [E [_ [_ [Hd _]]]]].
    rewrite E. simpl. split.
    + destruct Hok as [_ [Hins _]].
      unfold trip_insertable in Hins. repeat rewrite andb_true_iff in Hins.
      destruct Hins as [[_ Href] _].
      apply references_driver_rows in Href.
      unfold driver_rows in *. rewrite Hd.
      rewrite filter_update_where by reflexivity.
      intro Hnil. apply map_eq_nil in Hnil. contradiction.
    + unfold driver_rows. rewrite Hd.
      apply filter_update_where_forall; auto.
  - destruct (@completeTrip_runs db2 tripId actualDistance actualFare now t
                distance fare Htrip Hdist Hfare) as [Hr [_ Hd]].
    split; [exact Hr|].
    unfold driver_rows. rewrite Hd, Hdriver.
    apply filter_update_where_forall; auto.
    intros r Hr'. simpl. now rewrite N.eqb_sym.
Qed.

(** X27, witness: driver 11 accepts request 31, and completes trip 41. *)
Lemma accept_clears_and_complete_sets_availability_witness :
  (driver_rows (fst (accept Sample.call_11 Sample.dispatch_db)) 11 <> []
   /\ Forall (fun d => dp_is_available d = false)
        (driver_rows (fst (accept Sample.call_11 Sample.dispatch_db)) 11))
  /\ (snd (completeTrip 41 3 900 700 History.accepted_db) = Returned tt
      /\ Forall (fun d => dp_is_available d = true)
           (driver_rows (fst (completeTrip 41 3 900 700 History.accepted_db))
              11)).
Proof.
  apply (@accept_clears_and_complete_sets_availability
           Sample.dispatch_db Sample.call_11
           (trip_of_request (Sample.a_request 31 1 400 1000) 11 21 41 500)
           History.accepted_db 41 11
           (trip_of_request (Sample.a_request 31 1 400 1000) 11 21 41 500)
           3 900 3 900 700).
  - vm_compute. reflexivity.
  - vm_compute. reflexivity.
  - reflexivity.
  - vm_compute. reflexivity.
  - vm_compute. reflexivity.
Defined.

(* ================================================================== *)
(** ** Values that do not fit their columns *)

(** X28: a sample whose latitude, longitude or speed does not fit its
    column is not kept in the trail, and the call reports no error. *)
Theorem sample_out_of_range_is_dropped
  (db : database) (tripId driverId : uuid) (latitude longitude speed : Q)
  (recorded updated : timestamptz) :
  location_values {| lh_trip_id := tripId; lh_driver_id := driverId;
                     lh_latitude := latitude; lh_longitude := longitude;
                     lh_location := POINT longitude latitude;
                     lh_speed_kmh := speed; lh_recorded_at := recorded |}
  = None ->
  let db' := fst (recordDriverLocation tripId driverId latitude longitude
                    speed recorded updated db) in
  snd (recordDriverLocation tripId driverId latitude longitude speed
         recorded updated db) = Returned tt
  /\ location_history db' = location_history db.
Proof.
  intros Hvalues db'. subst db'.
  unfold recordDriverLocation, bind, insert_location_sample, update_drivers,
    write. rewrite Hvalues. split; reflexivity.
Qed.

(** X28, witness: driver 11 reports a speed of 1000 km/h on trip 41; the
    column holds values below 1000. *)
Lemma sample_out_of_range_is_dropped_witness :
  let db' := fst (recordDriverLocation 41 11 (1 # 10) (2 # 10) 1000 200 200
                    History.accepted_db) in
  snd (recordDriverLocation 41 11 (1 # 10) (2 # 10) 1000 200 200
         History.accepted_db) = Returned tt
  /\ location_history db' = location_history History.accepted_db.
Proof.
  apply (@sample_out_of_range_is_dropped History.accepted_db 41 11
           (1 # 10) (2 # 10) 1000 200 200).
  vm_compute. reflexivity.
Defined.

(** X29: [completeTrip] with a distance that does not fit DECIMAL(6,2) or a
    fare that does not fit DECIMAL(10,2) throws a TypeError and changes
    nothing: the trip keeps its status and its driver stays unavailable.
    The largest distance that fits is 9999.99: 9999.994 is stored as
    9999.99 and 9999.995 is rejected. *)
Theorem completeTrip_rejects_values_out_of_range
  (db : database) (tripId : uuid) (actualDistance actualFare : Q)
  (now : timestamptz) :
  to_numeric 6 2 actualDistance = None
  \/ to_numeric 10 2 actualFare = None ->
  completeTrip tripId actualDistance actualFare now db = (db, Thrown TypeError)
  /\ to_numeric 6 2 (9999994 # 1000) = Some (999999 # 100)
  /\ to_numeric 6 2 (9999995 # 1000) = None.
Proof.
  intro H. split; [|split; vm_compute; reflexivity].
  apply completeTrip_overflow. unfold completed_values.
  destruct H as [-> | ->]; [reflexivity|].
  destruct (to_numeric 6 2 actualDistance); reflexivity.
Qed.

(** X29, witness: trip 41, accepted by driver 11, completed with a distance
    of 10000 km. *)
Lemma completeTrip_rejects_values_out_of_range_witness :
  completeTrip 41 10000 900 700 History.accepted_db
  = (History.accepted_db, Thrown TypeError)
  /\ to_numeric 6 2 (9999994 # 1000) = Some (999999 # 100)
  /\ to_numeric 6 2 (9999995 # 1000) = None.
Proof.
  apply (@completeTrip_rejects_values_out_of_range History.accepted_db 41
           10000 900 700).
  left. vm_compute. reflexivity.
Defined.

(* ================================================================== *)
(** ** Calls in turn, whatever the database holds *)

Lemma accept_not_single db c :
  single (filter (open_request (call_requestId c)) (trip_requests db)) = None ->
  accept c db = (db, Thrown (Error "Request no longer available")).
Proof.
  intro H. unfold accept, acceptRequest, bind, select_single, read.
  rewrite H. reflexivity.
Qed.

Lemma accept_found_deletes db c request :
  single (filter (open_request (call_requestId c)) (trip_requests db))
  = Some request ->
  trip_requests (fst (accept c db))
  = delete_where (fun r => N.eqb (tr_id r) (call_requestId c))
      (trip_requests db).
Proof.
  intro H. unfold accept, acceptRequest, bind, select_single, read.
  rewrite H. unfold insert_trip, delete_requests, update_drivers,
    insert_notification, write.
  destruct (trip_insertable db _); cbn;
    destruct (single (filter _ (rider_profiles db))) as [rp|]; cbn;
    try reflexivity;
    destruct (references u_id (users db) (rp_user_id rp)); reflexivity.
Qed.

(** X30: calls of [acceptRequest] on one request id that are made one after
    the other return at most one trip, whatever the database holds and
    whatever the calls name as driver, vehicle and trip id. *)
Theorem calls_in_turn_at_most_one_trip
  (requestId : uuid) (calls : list accept_call) (db : database) :
  Forall (fun c => call_requestId c = requestId) calls ->
  (List.length (filter succeeded (snd (run_in_turn calls db))) <= 1)%nat.
Proof.
  intro Hall. revert db.
  induction Hall as [|c calls Hc Hrest IH]; intro db; simpl; [lia|].
  destruct (single (filter (open_request (call_requestId c))
                      (trip_requests db))) as [request|] eqn:Es.
  - pose proof (@accept_found_deletes db c request Es) as Hdel.
    destruct (accept c db) as [db1 r]. simpl in Hdel.
    rewrite (@run_in_turn_unavailable db1 requestId calls);
      [| rewrite Hdel, <- Hc; apply open_request_deleted | assumption].
    simpl.
    assert (Hnone : filter succeeded
                      (map (fun _ : accept_call =>
                              @Thrown trip (Error "Request no longer available"))
                         calls) = []).
    { clear. induction calls; simpl; auto. }
    destruct (succeeded r); simpl; rewrite Hnone; simpl; lia.
  - rewrite accept_not_single by assumption.
    specialize (IH db). destruct (run_in_turn calls db) as [db2 rs].
    simpl in *. exact IH.
Qed.

(** X30, witness: a call in the name of a driver without a profile, then
    the call of driver 11, both on request 31. *)
Lemma calls_in_turn_at_most_one_trip_witness :
  (List.length
     (filter succeeded
        (snd (run_in_turn [Sample2.call_unknown_driver; Sample.call_11]
                Sample.dispatch_db))) <= 1)%nat.
Proof.
  apply (@calls_in_turn_at_most_one_trip 31
           [Sample2.call_unknown_driver; Sample.call_11] Sample.dispatch_db).
  repeat constructor.
Defined.
